(** * XCQA: the cross-chain request relay (listener.py) and its client (bot.py)

    A shallow embedding of the two Python scripts of the repository:
    - [src/listener/listener.py]: the relay, [handle_event], [log_loop], [main];
    - [src/bot/bot.py]: the Telegram bot, [listen], [request], [check].

    Both scripts talk to the outside world (two chains through web3, the
    chat) and raise Python exceptions.  A computation is therefore a function
    from the state of the outside world to a [Run]: its result (a value, a
    raised exception, or "still looping" when the iteration budget of a
    [while] loop is used up), the world it leaves behind and the list of
    outside calls it made, in order, each with a flag telling whether the
    call answered ([true]) or raised ([false]). *)

From Stdlib Require Import ZArith Ascii String List Bool Lia.
From Stdlib.Strings Require Import Byte.
Import ListNotations.
Open Scope Z_scope.

(** ** Python values and exceptions *)

Definition bytes := list byte.

(** The exceptions the two scripts can meet.  [TransportError] stands for
    every failure of the JSON-RPC transport (connection refused, time-out,
    malformed answer); [ContractLogicError] is web3's exception for a
    reverted call or transaction. *)
Inductive Exn : Type :=
| IndexError
| ValueError
| TypeError
| AttributeError
| OverflowError
| TransportError
| ContractLogicError
| BlockNotFound
| TimeExhausted
| OtherError (what : string).

Inductive Result (A : Type) : Type :=
| Ok (a : A)
| Raise (x : Exn)
| OutOfFuel.
Arguments Ok {A} a.
Arguments Raise {A} x.
Arguments OutOfFuel {A}.

(** ** Computations over the outside world *)

Section Effects.
Context {W T : Type}.

Record Run (A : Type) : Type :=
  mkRun { result : Result A; final : W; trace : list (T * bool) }.
Arguments mkRun {A}.
Arguments result {A}.
Arguments final {A}.
Arguments trace {A}.

Definition M (A : Type) : Type := W -> Run A.

Definition ret {A} (a : A) : M A := fun w => mkRun (Ok a) w [].

Definition raise {A} (x : Exn) : M A := fun w => mkRun (Raise x) w [].

Definition out_of_fuel {A} : M A := fun w => mkRun OutOfFuel w [].

Definition bind {A B} (m : M A) (k : A -> M B) : M B :=
  fun w =>
    match m w with
    | mkRun (Ok a) w1 t1 =>
        match k a w1 with
        | mkRun r w2 t2 => mkRun r w2 (t1 ++ t2)
        end
    | mkRun (Raise x) w1 t1 => mkRun (Raise x) w1 t1
    | mkRun OutOfFuel w1 t1 => mkRun OutOfFuel w1 t1
    end.

(** A pure Python expression that may raise. *)
Definition lift {A} (v : Exn + A) : M A :=
  match v with
  | inr a => ret a
  | inl x => raise x
  end.

(** One call to the outside world: [f] gives its answer and the world
    after it; the call is recorded with [true] when it answered and with
    [false] when it raised. *)
Definition perform {A} (act : T) (f : W -> (Exn + A) * W) : M A :=
  fun w =>
    match f w with
    | (inr a, w') => mkRun (Ok a) w' [(act, true)]
    | (inl x, w') => mkRun (Raise x) w' [(act, false)]
    end.

(** [try: body except: handler] with a bare [except], which catches every
    exception. *)
Definition try_except {A} (body : M A) (handler : M A) : M A :=
  fun w =>
    match body w with
    | mkRun (Raise _) w1 t1 =>
        match handler w1 with
        | mkRun r w2 t2 => mkRun r w2 (t1 ++ t2)
        end
    | run => run
    end.

(** [try: body finally: cleanup]: the cleanup runs whether [body] returned
    or raised, and an exception of [body] is raised again after it. *)
Definition try_finally {A} (body : M A) (cleanup : M unit) : M A :=
  fun w =>
    match body w with
    | mkRun OutOfFuel w1 t1 => mkRun OutOfFuel w1 t1
    | mkRun r w1 t1 =>
        match cleanup w1 with
        | mkRun (Ok _) w2 t2 => mkRun r w2 (t1 ++ t2)
        | mkRun (Raise x) w2 t2 => mkRun (Raise x) w2 (t1 ++ t2)
        | mkRun OutOfFuel w2 t2 => mkRun OutOfFuel w2 (t1 ++ t2)
        end
    end.

(** [for x in xs: body(x)] *)
Fixpoint for_each {A} (body : A -> M unit) (xs : list A) : M unit :=
  match xs with
  | [] => ret tt
  | x :: rest => bind (body x) (fun _ => for_each body rest)
  end.
End Effects.

Arguments Run : clear implicits.
Arguments M : clear implicits.
Arguments mkRun {W T A}.
Arguments result {W T A}.
Arguments final {W T A}.
Arguments trace {W T A}.

Declare Scope py_scope.
Delimit Scope py_scope with py.
Notation "x <- m ;; k" := (bind m (fun x => k))
  (at level 61, m at next level, right associativity) : py_scope.
Notation "m ;; k" := (bind m (fun _ => k))
  (at level 61, right associativity) : py_scope.
Open Scope py_scope.

(** [xs[i]] for an index [i >= 0]. *)
Definition item {A} (xs : list A) (i : nat) : Exn + A :=
  match nth_error xs i with
  | Some x => inr x
  | None => inl IndexError
  end.

(** ** web3's [pad_bytes]

    [web3._utils.encoding.pad_bytes(fill_with, num_bytes, unpadded)] is
    [unpadded.rjust(num_bytes, fill_with)]: the fill byte is repeated on the
    left until the width is reached, and input that is already that wide or
    wider comes back unchanged. *)
Definition pad_bytes (fill_with : byte) (num_bytes : nat) (unpadded : bytes) : bytes :=
  repeat fill_with (num_bytes - length unpadded)%nat ++ unpadded.

(** Big-endian value of a byte string, [int.from_bytes(b, 'big')]. *)
Definition bytes_to_Z (b : bytes) : Z :=
  fold_left (fun acc x => acc * 256 + Z.of_N (Byte.to_N x)) b 0.

Definition Address := string.
Definition TxHash := bytes.
Definition FilterId := nat.

(** A transaction receipt; neither script reads it. *)
Record Receipt : Type := { status : Z }.

(** * The relay: [src/listener/listener.py] *)

Module Listener.

(** The block header returned by [get_block]; only [stateRoot] is read. *)
Record Block : Type := { stateRoot : bytes }.

(** One entry of [proof.storageProof]: its [key], [value] and [proof]. *)
Record StorageEntry : Type :=
  { entry_key : bytes; entry_value : bytes; entry_proof : list bytes }.

(** The answer of [get_proof] (eth_getProof).  The handler reads
    [accountProof], [storageHash] and [storageProof]; the answer also carries
    the [address] it is about, which the handler never reads. *)
Record ProofResponse : Type :=
  { address : Address;
    accountProof : list bytes;
    storageHash : bytes;
    storageProof : list StorageEntry }.

(** The seven-item list [stateProof] passed to [verify], item by item. *)
Record StateProof : Type :=
  { sp_stateRoot : bytes;
    sp_account : Address;
    sp_accountProof : list bytes;
    sp_storageHash : bytes;
    sp_storageKey : bytes;
    sp_storageValue : bytes;
    sp_storageProof : list bytes }.

(** [event['args']] of a RequestLogged event. *)
Record RequestLogged : Type :=
  { requestId : Z; account : Address; key : Z; blockId : Z }.

(** What the relay prints. *)
Inductive Line : Type :=
| Banner
| ServedLine (requestId : Z) (value : bytes).

(** The calls the relay makes to the outside world. *)
Inductive Call : Type :=
| GetBlock (blockId : Z)
| GetProof (account : Address) (keys : list Z) (blockId : Z)
| VerifyTransact (requestId : Z) (stateProof : StateProof)
| WaitForReceipt (txn_hash : TxHash)
| Print (line : Line)
| CreateFilter
| GetNewEntries (event_filter : FilterId)
| Sleep (seconds : Z)
| LoopClose.

(** The chain gateway of the relay: the mainnet node behind [infura]
    ([get_block], [get_proof]) and the home chain behind [web3] and
    [contract] (the [verify] transaction, its receipt, the RequestLogged
    filter).  Every call may raise and may change the world. *)
Class Gateway (W : Type) : Type :=
  { get_block : Z -> W -> (Exn + Block) * W;
    get_proof : Address -> list Z -> Z -> W -> (Exn + ProofResponse) * W;
    verify_transact : Z -> StateProof -> W -> (Exn + TxHash) * W;
    wait_for_transaction_receipt : TxHash -> W -> (Exn + Receipt) * W;
    createFilter : W -> (Exn + FilterId) * W;
    get_new_entries : FilterId -> W -> (Exn + list RequestLogged) * W;
    sleep : Z -> W -> W }.

(** Lines 54-62: the list literal [stateProof].  [proof.storageProof[0]]
    raises IndexError on an empty list. *)
Definition stateProof (block : Block) (account : Address) (proof : ProofResponse)
  : Exn + StateProof :=
  match item (storageProof proof) 0 with
  | inl x => inl x
  | inr entry =>
      inr {| sp_stateRoot := stateRoot block;
             sp_account := account;
             sp_accountProof := accountProof proof;
             sp_storageHash := storageHash proof;
             sp_storageKey := pad_bytes x00 32 (entry_key entry);
             sp_storageValue := entry_value entry;
             sp_storageProof := entry_proof entry |}
  end.

Section Relay.
Context {W : Type} {G : Gateway W}.

Definition print (line : Line) : M W Call unit :=
  perform (Print line) (fun w => (inr tt, w)).

(** [handle_event(event)], lines 44-68.  Building the [infura] client on
    line 50 makes no call. *)
Definition handle_event (event : RequestLogged) : M W Call unit :=
  let requestId := requestId event in
  let account := account event in
  let key := key event in
  let blockId := blockId event in
  block <- perform (GetBlock blockId) (get_block blockId) ;;
  proof <- perform (GetProof account [key] blockId)
                   (get_proof account [key] blockId) ;;
  stateProof <- lift (stateProof block account proof) ;;
  txn_hash <- perform (VerifyTransact requestId stateProof)
                      (verify_transact requestId stateProof) ;;
  perform (WaitForReceipt txn_hash) (wait_for_transaction_receipt txn_hash) ;;
  entry <- lift (item (storageProof proof) 0) ;;
  print (ServedLine requestId (entry_value entry)).

(** [log_loop(event_filter, poll_interval)], lines 70-74.  [while True]
    never ends by itself; [fuel] bounds the number of iterations that are
    run, and [OutOfFuel] means that the loop is still going. *)
Fixpoint log_loop (fuel : nat) (event_filter : FilterId) (poll_interval : Z)
  : M W Call unit :=
  match fuel with
  | O => out_of_fuel
  | S fuel' =>
      entries <- perform (GetNewEntries event_filter)
                         (get_new_entries event_filter) ;;
      for_each handle_event entries ;;
      perform (Sleep poll_interval) (fun w => (inr tt, sleep poll_interval w)) ;;
      log_loop fuel' event_filter poll_interval
  end.

(** [main()], lines 76-84. *)
Definition main (fuel : nat) : M W Call unit :=
  print Banner ;;
  event_filter <- perform CreateFilter createFilter ;;
  try_finally (log_loop fuel event_filter 2)
              (perform LoopClose (fun w => (inr tt, w))).

End Relay.

End Listener.

(** * The client: [src/bot/bot.py] *)

Module Bot.

(** The values found in the tuple that [getRequest(...).call()] returns. *)
Inductive PyVal : Type :=
| VInt (n : Z)
| VBool (b : bool)
| VBytes (b : bytes)
| VStr (s : string).

(** A [datetime], kept as the instant it denotes. *)
Record DateTime : Type := { timestamp : Z }.

(** [event['args']] of a RequestServed event. *)
Record RequestServed : Type := { requestId : Z; reply : bytes }.

(** The filter object returned by
    [contract.events.RequestServed.createFilter(fromBlock='latest',
    argument_filters={'requestId': requestId})]: the identifier the node
    gave it and the value its [requestId] argument is constrained to. *)
Record EventFilter : Type := { filter_id : nat; argument_filters : Z }.

(** The messages of the bot, one constructor per f-string, with the values
    that are interpolated; ['0x' + b.hex()] is kept as the bytes [b]. *)
Inductive Message : Type :=
| RequestCreated (requestId : Z) (account : string) (key blockId : Z)
| RequestServedMsg (requestId : Z) (reply : bytes)
| RequestStatus (requestId : Z) (address key block : PyVal) (date : DateTime)
                (served : PyVal) (resp : bytes)
| NotFound (requestId : Z).

(** The calls the bot makes to the outside world. *)
Inductive Call : Type :=
| RequestTransact (account : Address) (key blockId reserved1 reserved2 : Z)
| WaitForReceipt (txn_hash : TxHash)
| GetTotal
| GetRequest (requestId : Z)
| CreateFilter (requestId : Z)
| GetNewEntries (eventFilter : EventFilter)
| Sleep (seconds : Z)
| ReplyText (message : Message).

(** What the Python runtime decides: [int(s)] on a string and the range of
    instants [datetime.fromtimestamp] accepts. *)
Class Platform : Type :=
  { py_int : string -> Exn + Z;
    localtime : Z -> Exn + DateTime }.

(** The chain gateway of the bot: the home chain behind [web3] and
    [contract].  Every call may raise and may change the world. *)
Class Gateway (W : Type) : Type :=
  { request_transact : Address -> Z -> Z -> Z -> Z -> W -> (Exn + TxHash) * W;
    wait_for_transaction_receipt : TxHash -> W -> (Exn + Receipt) * W;
    getTotal : W -> (Exn + Z) * W;
    getRequest : Z -> W -> (Exn + list PyVal) * W;
    createFilter : Z -> W -> (Exn + nat) * W;
    get_new_entries : EventFilter -> W -> (Exn + list RequestServed) * W;
    sleep : Z -> W -> W }.

(** [datetime.fromtimestamp(v)]: a [bool] counts as the integer 0 or 1,
    bytes and strings are a TypeError. *)
Definition datetime_fromtimestamp {P : Platform} (v : PyVal) : Exn + DateTime :=
  match v with
  | VInt t => localtime t
  | VBool b => localtime (if b then 1 else 0)
  | VBytes _ => inl TypeError
  | VStr _ => inl TypeError
  end.

(** [v.hex()]: only bytes have the method. *)
Definition hex (v : PyVal) : Exn + bytes :=
  match v with
  | VBytes b => inr b
  | _ => inl AttributeError
  end.

(** The chat behind [update.message]: it takes a message or refuses it,
    and a refused message is an exception of [reply_text]. *)
Class Chat (W : Type) : Type :=
  { deliver : Message -> W -> (Exn + unit) * W }.

Section Client.
Context {W : Type} {P : Platform} {G : Gateway W} {C : Chat W}.

(** [await update.message.reply_text(message)] *)
Definition reply_text (message : Message) : M W Call unit :=
  perform (ReplyText message) (deliver message).

(** The [while not received] loop of [listen], lines 57-62, on its two
    variables [received] and [entries] ([None] before the first poll). *)
Fixpoint listen_loop (fuel : nat) (eventFilter : EventFilter)
  (received : bool) (entries : option (list RequestServed))
  : M W Call (option (list RequestServed)) :=
  if received then ret entries
  else
    match fuel with
    | O => out_of_fuel
    | S fuel' =>
        entries <- perform (GetNewEntries eventFilter)
                           (get_new_entries eventFilter) ;;
        if (0 <? length entries)%nat
        then listen_loop fuel' eventFilter true (Some entries)
        else
          perform (Sleep 2) (fun w => (inr tt, sleep 2 w)) ;;
          listen_loop fuel' eventFilter false (Some entries)
    end.

(** [listen(eventFilter)], lines 52-63. *)
Definition listen (fuel : nat) (eventFilter : EventFilter)
  : M W Call RequestServed :=
  entries <- listen_loop fuel eventFilter false None ;;
  match entries with
  | Some entries => lift (item entries 0)
  | None => raise TypeError
  end.

(** [request(update, context)], lines 100-115, on [context.args]. *)
Definition request (fuel : nat) (args : list string) : M W Call unit :=
  account <- lift (item args 0) ;;
  arg1 <- lift (item args 1) ;;
  key <- lift (py_int arg1) ;;
  arg2 <- lift (item args 2) ;;
  blockId <- lift (py_int arg2) ;;
  txn_hash <- perform (RequestTransact account key blockId 0 0)
                      (request_transact account key blockId 0 0) ;;
  perform (WaitForReceipt txn_hash) (wait_for_transaction_receipt txn_hash) ;;
  total <- perform GetTotal getTotal ;;
  let requestId := total - 1 in
  reply_text (RequestCreated requestId account key blockId) ;;
  id <- perform (CreateFilter requestId) (createFilter requestId) ;;
  let eventFilter := {| filter_id := id; argument_filters := requestId |} in
  event <- listen fuel eventFilter ;;
  let requestId := Bot.requestId event in
  let reply := Bot.reply event in
  reply_text (RequestServedMsg requestId reply).

(** [check(update, context)], lines 118-129, on [context.args]. *)
Definition check (args : list string) : M W Call unit :=
  arg0 <- lift (item args 0) ;;
  requestId <- lift (py_int arg0) ;;
  try_except
    (msg <- perform (GetRequest requestId) (getRequest requestId) ;;
     msg3 <- lift (item msg 3) ;;
     date <- lift (datetime_fromtimestamp msg3) ;;
     msg7 <- lift (item msg 7) ;;
     resp <- lift (hex msg7) ;;
     msg0 <- lift (item msg 0) ;;
     msg1 <- lift (item msg 1) ;;
     msg2 <- lift (item msg 2) ;;
     msg6 <- lift (item msg 6) ;;
     reply_text (RequestStatus requestId msg0 msg1 msg2 date msg6 resp))
    (reply_text (NotFound requestId)).

End Client.

(** The chat that takes every message. *)
Definition reliable (W : Type) : Chat W :=
  {| deliver := fun _ w => (inr tt, w) |}.

(** The chat that refuses every message. *)
Definition unreachable (W : Type) : Chat W :=
  {| deliver := fun _ w => (inl (OtherError "telegram.error.NetworkError"), w) |}.

(** The chat that refuses the messages about the status of a request and
    takes the others. *)
Definition choosy (W : Type) : Chat W :=
  {| deliver := fun message w =>
       match message with
       | RequestStatus _ _ _ _ _ _ _ =>
           (inl (OtherError "telegram.error.BadRequest"), w)
       | _ => (inr tt, w)
       end |}.

End Bot.

(** * Gateways to run the scripts on

    Two executable gateways, used to run the scripts on concrete inputs. *)

(** ** A mainnet and a home chain for the relay *)

Module Devnet.
Import Listener.

(** The home chain hands out the batches of [queue], one per poll, and
    remembers the [verify] transactions it accepted.  A [strict] contract
    reverts a [verify] for a request it has already seen; a contract that is
    not strict takes it as a no-op.  The mainnet only knows the blocks up to
    [head]. *)
Record World : Type :=
  { head : Z;
    strict : bool;
    queue : list (list RequestLogged);
    accepted : list (Z * StateProof) }.

Definition byte_of (z : Z) : byte :=
  match Byte.of_N (Z.to_N (z mod 256)) with
  | Some b => b
  | None => x00
  end.

(** The shortest big-endian byte string of [z], at most [n] bytes. *)
Fixpoint be_bytes (n : nat) (z : Z) : bytes :=
  match n with
  | O => []
  | S n' => if z <=? 0 then [] else be_bytes n' (z / 256) ++ [byte_of z]
  end.

(** The slot [k] of every account holds the number [k + 41]. *)
Definition entry_for (k : Z) : StorageEntry :=
  {| entry_key := be_bytes 32 k;
     entry_value := be_bytes 32 (k + 41);
     entry_proof := [] |}.

Definition seen (id : Z) (w : World) : bool :=
  existsb (fun p => fst p =? id) (accepted w).

#[export] Instance gateway : Gateway World :=
  {| get_block := fun b w =>
       if b <=? head w
       then (inr {| stateRoot := be_bytes 32 (b + 1) |}, w)
       else (inl BlockNotFound, w);
     get_proof := fun a keys b w =>
       (inr {| address := a;
               accountProof := [];
               storageHash := be_bytes 32 7;
               storageProof := map entry_for keys |}, w);
     verify_transact := fun id p w =>
       if strict w && seen id w
       then (inl ContractLogicError, w)
       else (inr (be_bytes 32 (id + 1)),
             {| head := head w; strict := strict w; queue := queue w;
                accepted := accepted w ++ [(id, p)] |});
     wait_for_transaction_receipt := fun h w => (inr {| status := 1 |}, w);
     createFilter := fun w => (inr 0%nat, w);
     get_new_entries := fun f w =>
       match queue w with
       | [] => (inr [], w)
       | batch :: later =>
           (inr batch,
            {| head := head w; strict := strict w; queue := later;
               accepted := accepted w |})
       end;
     sleep := fun s w => w |}.

End Devnet.

(** ** A home chain for the bot *)

Module Testnet.
Import Bot.

(** One request as the Bridge stores it. *)
Record Entry : Type :=
  { e_account : Address;
    e_key : Z;
    e_blockId : Z;
    e_submittedAt : Z;
    e_served : bool;
    e_reply : bytes }.

(** Modelled from the spec: the Bridge contract on the home chain, whose
    source is not among the source files.  It keeps the requests in the
    order of their submission and the RequestServed events it emitted.  A
    [requestId] is "monotonically assigned" and "unique": the request
    submitted when [total] requests exist gets the identifier [total], which
    is what makes "the contract's request counter immediately after
    confirmation", minus one, the identifier of the last submission. *)
Record Bridge : Type :=
  { requests : list Entry;
    events : list RequestServed }.

Definition bridge_getTotal (b : Bridge) : Z := Z.of_nat (length (requests b)).

(** [request(account, key, blockId, reserved1, reserved2) -> requestId] *)
Definition bridge_request (account : Address) (key blockId : Z) (b : Bridge)
  : Z * Bridge :=
  (bridge_getTotal b,
   {| requests := requests b ++
        [{| e_account := account; e_key := key; e_blockId := blockId;
            e_submittedAt := 1700000000 + bridge_getTotal b;
            e_served := false; e_reply := [] |}];
      events := events b |}).

(** [getRequest(requestId)]: the tuple (account, key, blockId, submittedAt,
    ..., served, reply), or nothing for an unknown identifier. *)
Definition bridge_getRequest (id : Z) (b : Bridge) : option (list PyVal) :=
  if id <? 0 then None
  else
    match nth_error (requests b) (Z.to_nat id) with
    | Some e =>
        Some [VStr (e_account e); VInt (e_key e); VInt (e_blockId e);
              VInt (e_submittedAt e); VInt 0; VInt 0;
              VBool (e_served e); VBytes (e_reply e)]
    | None => None
    end.

Fixpoint mark_served (n : nat) (reply : bytes) (l : list Entry) : list Entry :=
  match l, n with
  | [], _ => []
  | e :: rest, O =>
      {| e_account := e_account e; e_key := e_key e; e_blockId := e_blockId e;
         e_submittedAt := e_submittedAt e;
         e_served := true; e_reply := reply |} :: rest
  | e :: rest, S n' => e :: mark_served n' reply rest
  end.

(** [verify(requestId, StateProof)] with a proof the contract accepts for
    the value [reply]: a pending request becomes served, once, and
    RequestServed(requestId, reply) is emitted; anything else reverts. *)
Definition bridge_verify (id : Z) (reply : bytes) (b : Bridge) : Bridge :=
  if id <? 0 then b
  else
    match nth_error (requests b) (Z.to_nat id) with
    | Some e =>
        if e_served e then b
        else {| requests := mark_served (Z.to_nat id) reply (requests b);
                events := events b ++ [{| requestId := id; reply := reply |}] |}
    | None => b
    end.

(** What the other parties get mined: another client's request, or the
    relay's [verify]. *)
Inductive Tx : Type :=
| Submit (account : Address) (key blockId : Z)
| Verify (id : Z) (reply : bytes).

Definition is_submit (t : Tx) : bool :=
  match t with
  | Submit _ _ _ => true
  | Verify _ _ => false
  end.

(** The home chain as the bot sees it.  [schedule] lists what the other
    parties get mined before each successive call of the bot (or during each
    of its sleeps); [mempool] holds the bot's own request transactions that
    are not mined yet and [mine] the identifiers the Bridge gave to those
    that are; [cursors] gives, for every filter, how many events it has been
    shown.  When the node is not [online] every call is a transport error. *)
Record Chain : Type :=
  { bridge : Bridge;
    online : bool;
    mempool : list (Address * Z * Z);
    mine : list Z;
    cursors : list nat;
    schedule : list (list Tx) }.

Definition apply_tx (b : Bridge) (t : Tx) : Bridge :=
  match t with
  | Submit a k blk => snd (bridge_request a k blk b)
  | Verify id reply => bridge_verify id reply b
  end.

(** The other parties take their turn. *)
Definition tick (c : Chain) : Chain :=
  match schedule c with
  | [] => c
  | batch :: later =>
      {| bridge := fold_left apply_tx batch (bridge c);
         online := online c; mempool := mempool c; mine := mine c;
         cursors := cursors c; schedule := later |}
  end.

(** The bot's pending request transactions are mined, in order. *)
Fixpoint mine_all (pool : list (Address * Z * Z)) (b : Bridge) (ids : list Z)
  : Bridge * list Z :=
  match pool with
  | [] => (b, ids)
  | (a, k, blk) :: rest =>
      let (id, b') := bridge_request a k blk b in
      mine_all rest b' (ids ++ [id])
  end.

Fixpoint set_cursor (n : nat) (v : nat) (l : list nat) : list nat :=
  match l, n with
  | [], _ => []
  | _ :: rest, O => v :: rest
  | x :: rest, S n' => x :: set_cursor n' v rest
  end.

Definition guarded {A} (c : Chain) (f : Chain -> (Exn + A) * Chain)
  : (Exn + A) * Chain :=
  if online c then f (tick c) else (inl TransportError, c).

#[export] Instance gateway : Gateway Chain :=
  {| request_transact := fun a k blk r1 r2 c =>
       guarded c (fun c =>
         (inr [x01],
          {| bridge := bridge c; online := online c;
             mempool := mempool c ++ [(a, k, blk)]; mine := mine c;
             cursors := cursors c; schedule := schedule c |}));
     wait_for_transaction_receipt := fun h c =>
       guarded c (fun c =>
         let (b, ids) := mine_all (mempool c) (bridge c) (mine c) in
         (inr {| status := 1 |},
          {| bridge := b; online := online c; mempool := []; mine := ids;
             cursors := cursors c; schedule := schedule c |}));
     getTotal := fun c =>
       guarded c (fun c => (inr (bridge_getTotal (bridge c)), c));
     getRequest := fun id c =>
       guarded c (fun c =>
         match bridge_getRequest id (bridge c) with
         | Some tuple => (inr tuple, c)
         | None => (inl ContractLogicError, c)
         end);
     createFilter := fun id c =>
       guarded c (fun c =>
         (inr (length (cursors c)),
          {| bridge := bridge c; online := online c; mempool := mempool c;
             mine := mine c;
             cursors := cursors c ++ [length (events (bridge c))];
             schedule := schedule c |}));
     get_new_entries := fun f c =>
       guarded c (fun c =>
         match nth_error (cursors c) (filter_id f) with
         | None => (inl (OtherError "filter not found"), c)
         | Some seen =>
             (inr (filter (fun ev => requestId ev =? argument_filters f)
                          (skipn seen (events (bridge c)))),
              {| bridge := bridge c; online := online c;
                 mempool := mempool c; mine := mine c;
                 cursors := set_cursor (filter_id f)
                              (length (events (bridge c))) (cursors c);
                 schedule := schedule c |})
         end);
     sleep := fun s c => tick c |}.

(** [int(s)] on a string of ASCII characters: white space around the
    number is dropped, one sign ['+'] or ['-'] may come first, and the
    decimal digits may be separated by single underscores; anything else is
    a ValueError.  (Python also reads the decimal digits and the white space
    of other scripts; a string with such characters is refused here.) *)
Definition is_space (c : ascii) : bool :=
  let n := nat_of_ascii c in
  ((9 <=? n) && (n <=? 13) || (28 <=? n) && (n <=? 32))%nat.

Definition digit_of (c : ascii) : option Z :=
  let d := Z.of_nat (nat_of_ascii c) - 48 in
  if (0 <=? d) && (d <=? 9) then Some d else None.

Fixpoint lstrip (s : string) : string :=
  match s with
  | EmptyString => EmptyString
  | String c rest => if is_space c then lstrip rest else s
  end.

Fixpoint rstrip (s : string) : string :=
  match s with
  | EmptyString => EmptyString
  | String c rest =>
      match rstrip rest with
      | EmptyString => if is_space c then EmptyString else String c EmptyString
      | kept => String c kept
      end
  end.

Fixpoint digits (s : string) (acc : Z) : Exn + Z :=
  match s with
  | EmptyString => inr acc
  | String c rest =>
      match digit_of c with
      | Some d => digits rest (acc * 10 + d)
      | None =>
          if Ascii.eqb c "_"
          then
            match rest with
            | String c' _ =>
                match digit_of c' with
                | Some _ => digits rest acc
                | None => inl ValueError
                end
            | EmptyString => inl ValueError
            end
          else inl ValueError
      end
  end.

(** The digits of a number start with a digit. *)
Definition unsigned (s : string) : Exn + Z :=
  match s with
  | EmptyString => inl ValueError
  | String c _ =>
      match digit_of c with
      | Some _ => digits s 0
      | None => inl ValueError
      end
  end.

Definition int_of_string (s : string) : Exn + Z :=
  match rstrip (lstrip s) with
  | String "+"%char rest => unsigned rest
  | String "-"%char rest =>
      match unsigned rest with
      | inr n => inr (- n)
      | inl x => inl x
      end
  | number => unsigned number
  end.

(** [int] as above, and [datetime.fromtimestamp] for the instants of the
    years 1970 to 9999. *)
#[export] Instance platform : Platform :=
  {| py_int := int_of_string;
     localtime := fun t =>
       if (0 <=? t) && (t <? 253402300800)
       then inr {| timestamp := t |}
       else inl OverflowError |}.

End Testnet.

(** * What the claims talk about *)

Module Claims.
Import Listener.

(** ** The relay *)

(** The [verify] transactions of a trace that the home chain took (the
    call returned a transaction hash): identifier and proof, in order. *)
Fixpoint submissions (t : list (Call * bool)) : list (Z * StateProof) :=
  match t with
  | [] => []
  | (VerifyTransact id p, true) :: rest => (id, p) :: submissions rest
  | _ :: rest => submissions rest
  end.

(** What the relay printed. *)
Fixpoint printed (t : list (Call * bool)) : list Line :=
  match t with
  | [] => []
  | (Print line, _) :: rest => line :: printed rest
  | _ :: rest => printed rest
  end.

(** The calls of one fully processed event, in the order of
    [handle_event]. *)
Definition calls_of (e : RequestLogged) (p : StateProof) (h : TxHash)
  (v : bytes) : list Call :=
  [ GetBlock (blockId e);
    GetProof (account e) [key e] (blockId e);
    VerifyTransact (requestId e) p;
    WaitForReceipt h;
    Print (ServedLine (requestId e) v) ].

(** The trace of an event that was processed to its end: every call
    answered, the receipt included. *)
Definition handled (e : RequestLogged) (t : list (Call * bool)) : Prop :=
  exists p h v, t = map (fun c => (c, true)) (calls_of e p h v).

(** The trace of an event whose processing raised: the first calls of the
    event, at most up to the wait for the receipt, and no receipt. *)
Definition interrupted (e : RequestLogged) (t : list (Call * bool)) : Prop :=
  exists p h v n,
    (n <= 4)%nat /\
    map fst t = firstn n (calls_of e p h v) /\
    forall h', ~ In (WaitForReceipt h', true) t.

(** The storage-proof entry "matching the requested key": its key, read as
    a big-endian number, is the requested slot. *)
Definition matches (key : Z) (entry : StorageEntry) : bool :=
  bytes_to_Z (entry_key entry) =? key.

(** The Proof Assembler as the specification words it,
    (header, accountProofResponse, key) -> StateProof: account,
    accountProof and storageHash from the proof response, the storage
    fields from the entry matching the requested key. *)
Definition spec_stateProof (header : Block) (response : ProofResponse)
  (key : Z) : option StateProof :=
  match find (matches key) (storageProof response) with
  | None => None
  | Some entry =>
      Some {| sp_stateRoot := stateRoot header;
              sp_account := address response;
              sp_accountProof := accountProof response;
              sp_storageHash := storageHash response;
              sp_storageKey := pad_bytes x00 32 (entry_key entry);
              sp_storageValue := entry_value entry;
              sp_storageProof := entry_proof entry |}
  end.

(** ** The bot *)

(** The messages the bot sent, in order. *)
Fixpoint replies (t : list (Bot.Call * bool)) : list Bot.Message :=
  match t with
  | [] => []
  | (Bot.ReplyText m, _) :: rest => m :: replies rest
  | _ :: rest => replies rest
  end.

(** The contract of an event filter: the entries it returns satisfy its
    exact-match constraint on [requestId]. *)
Definition exact_match {W : Type} (G : Bot.Gateway W) : Prop :=
  forall f w entries w',
    Bot.get_new_entries f w = (inr entries, w') ->
    Forall (fun ev => Bot.requestId ev = Bot.argument_filters f) entries.

(** The world after [n] polls in a row that each returned no entry and
    were each followed by the two-second sleep of [listen]; [None] when one
    of these polls returned entries or raised. *)
Fixpoint after_empty_polls {W : Type} {G : Bot.Gateway W} (n : nat)
  (f : Bot.EventFilter) (w : W) : option W :=
  match n with
  | O => Some w
  | S n' =>
      match Bot.get_new_entries f w with
      | (inr [], w') => after_empty_polls n' f (Bot.sleep 2 w')
      | _ => None
      end
  end.

End Claims.

(** * Inputs the statements are run on *)

Module Scenario.
Import Listener.
Open Scope string_scope.
#[local] Existing Instance Testnet.gateway.

(** RequestLogged(requestId=42, account=0xabc, key=3, blockId=18000000) *)
Definition event42 : RequestLogged :=
  {| requestId := 42; account := "0xabc"; key := 3; blockId := 18000000 |}.

(** A request for a block the mainnet has not produced yet. *)
Definition event43 : RequestLogged :=
  {| requestId := 43; account := "0xabc"; key := 3; blockId := 18000500 |}.

Definition devnet (strict : bool) (queue : list (list RequestLogged))
  : Devnet.World :=
  {| Devnet.head := 18000100; Devnet.strict := strict;
     Devnet.queue := queue; Devnet.accepted := [] |}.

Definition header : Block := {| stateRoot := repeat xaa 32 |}.

(** An answer with the entries of the slots 5 and 3, in that order. *)
Definition two_entries : ProofResponse :=
  {| address := "0xabc";
     accountProof := [];
     storageHash := repeat xbb 32;
     storageProof := [Devnet.entry_for 5; Devnet.entry_for 3] |}.

(** An answer whose entry has a key of 33 bytes. *)
Definition wide_key : ProofResponse :=
  {| address := "0xabc";
     accountProof := [];
     storageHash := repeat xbb 32;
     storageProof :=
       [{| entry_key := repeat x01 33; entry_value := [x2a];
           entry_proof := [] |}] |}.

(** The answer to a query for the slot 1 alone. *)
Definition slot1 : ProofResponse :=
  {| address := "0xabc";
     accountProof := [];
     storageHash := repeat xbb 32;
     storageProof := [Devnet.entry_for 1] |}.

(** A home chain whose Bridge already holds [n] pending requests. *)
Definition testnet (n : nat) (online : bool) (schedule : list (list Testnet.Tx))
  : Testnet.Chain :=
  {| Testnet.bridge :=
       {| Testnet.requests :=
            repeat {| Testnet.e_account := "0xabc"; Testnet.e_key := 3;
                      Testnet.e_blockId := 18000000;
                      Testnet.e_submittedAt := 1700000000;
                      Testnet.e_served := false; Testnet.e_reply := [] |} n;
          Testnet.events := [] |};
     Testnet.online := online;
     Testnet.mempool := [];
     Testnet.mine := [];
     Testnet.cursors := [];
     Testnet.schedule := schedule |}.

Definition request_args : list string := ["0xabc"; "3"; "18000000"].

(** A home chain whose Bridge holds the pending requests 0 to 42 and on
    which one filter, number 0, is registered. *)
Definition watching (schedule : list (list Testnet.Tx)) : Testnet.Chain :=
  {| Testnet.bridge := Testnet.bridge (testnet 43 true []);
     Testnet.online := true;
     Testnet.mempool := [];
     Testnet.mine := [];
     Testnet.cursors := [0%nat];
     Testnet.schedule := schedule |}.

Definition filter41 : Bot.EventFilter :=
  {| Bot.filter_id := 0; Bot.argument_filters := 41 |}.

Definition filter42 : Bot.EventFilter :=
  {| Bot.filter_id := 0; Bot.argument_filters := 42 |}.

(** Two waiters, for the requests 41 and 42, at work at once: both filters
    are registered before either wait is over. *)
Definition two_waiters (fuel : nat)
  : M Testnet.Chain Bot.Call (Bot.RequestServed * Bot.RequestServed) :=
  id41 <- perform (Bot.CreateFilter 41) (Bot.createFilter 41) ;;
  id42 <- perform (Bot.CreateFilter 42) (Bot.createFilter 42) ;;
  served41 <- Bot.listen fuel
                {| Bot.filter_id := id41; Bot.argument_filters := 41 |} ;;
  served42 <- Bot.listen fuel
                {| Bot.filter_id := id42; Bot.argument_filters := 42 |} ;;
  ret (served41, served42).

End Scenario.

(** * The counter queries of the bot: [counter], [pending], [served] *)

Module Queries.

(** The three messages, one per f-string, with the number interpolated. *)
Inductive Message : Type :=
| SubmittedRequests (message : Z)
| PendingRequests (message : Z)
| ServedRequests (message : Z).

Inductive Call : Type :=
| GetTotal
| GetPending
| GetServed
| ReplyText (message : Message).

(** The three view functions of the Bridge, called through [contract]. *)
Class Gateway (W : Type) : Type :=
  { getTotal : W -> (Exn + Z) * W;
    getPending : W -> (Exn + Z) * W;
    getServed : W -> (Exn + Z) * W }.

Section Handlers.
Context {W : Type} {G : Gateway W}.

Definition reply_text (message : Message) : M W Call unit :=
  perform (ReplyText message) (fun w => (inr tt, w)).



(** [served(update, context)], lines 95-97. *)
Definition served : M W Call unit :=
  message <- perform GetServed getServed ;;
  reply_text (ServedRequests message).

End Handlers.

(** The messages sent, in order. *)
Fixpoint replies (t : list (Call * bool)) : list Message :=
  match t with
  | [] => []
  | (ReplyText m, _) :: rest => m :: replies rest
  | _ :: rest => replies rest
  end.

(** The view functions on the home chain of [Testnet]. *)
Definition count_served (served : bool) (b : Testnet.Bridge) : Z :=
  Z.of_nat (length (filter (fun e => Bool.eqb (Testnet.e_served e) served)
                           (Testnet.requests b))).

#[export] Instance testnet : Gateway Testnet.Chain :=
  {| getTotal := fun c =>
       Testnet.guarded c
         (fun c => (inr (Testnet.bridge_getTotal (Testnet.bridge c)), c));
     getPending := fun c =>
       Testnet.guarded c
         (fun c => (inr (count_served false (Testnet.bridge c)), c));
     getServed := fun c =>
       Testnet.guarded c
         (fun c => (inr (count_served true (Testnet.bridge c)), c)) |}.

End Queries.

(** * A home chain that mines and reverts *)

Module Reverting.
Import Listener.

(** The chains of [Devnet], except that every [verify] transaction is mined
    with the status 0 of a reverted transaction. *)
#[export] Instance gateway : Gateway Devnet.World :=
  {| get_block := get_block (Gateway := Devnet.gateway);
     get_proof := get_proof (Gateway := Devnet.gateway);
     verify_transact := verify_transact (Gateway := Devnet.gateway);
     wait_for_transaction_receipt := fun h w => (inr {| status := 0 |}, w);
     createFilter := createFilter (Gateway := Devnet.gateway);
     get_new_entries := get_new_entries (Gateway := Devnet.gateway);
     sleep := sleep (Gateway := Devnet.gateway) |}.

End Reverting.

(** * A mainnet node that answers without storage proof *)

Module Sparse.
Import Listener.

(** The chains of [Devnet], except that the answer of [get_proof] holds no
    storage-proof entry. *)
#[export] Instance gateway : Gateway Devnet.World :=
  {| get_block := get_block (Gateway := Devnet.gateway);
     get_proof := fun a keys b w =>
       (inr {| address := a; accountProof := [];
               storageHash := []; storageProof := [] |}, w);
     verify_transact := verify_transact (Gateway := Devnet.gateway);
     wait_for_transaction_receipt :=
       wait_for_transaction_receipt (Gateway := Devnet.gateway);
     createFilter := createFilter (Gateway := Devnet.gateway);
     get_new_entries := get_new_entries (Gateway := Devnet.gateway);
     sleep := sleep (Gateway := Devnet.gateway) |}.

End Sparse.

(** * Nodes that are down *)

Module Down.
Import Listener.

(** Both nodes of the relay are out of reach: every call is a transport
    error. *)
#[export] Instance gateway : Gateway Devnet.World :=
  {| get_block := fun b w => (inl TransportError, w);
     get_proof := fun a keys b w => (inl TransportError, w);
     verify_transact := fun id p w => (inl TransportError, w);
     wait_for_transaction_receipt := fun h w => (inl TransportError, w);
     createFilter := fun w => (inl TransportError, w);
     get_new_entries := fun f w => (inl TransportError, w);
     sleep := fun s w => w |}.

End Down.

(** * A platform with a 32-bit clock *)

Module Time32.

(** [int] as on [Testnet]; [datetime.fromtimestamp] on a platform whose C
    [localtime] takes a signed 32-bit number of seconds and is an
    OverflowError beyond. *)
#[export] Instance platform : Bot.Platform :=
  {| Bot.py_int := Testnet.int_of_string;
     Bot.localtime := fun t =>
       if (- 2147483648 <=? t) && (t <? 2147483648)
       then inr {| Bot.timestamp := t |}
       else inl OverflowError |}.

(** A home chain whose Bridge holds one request, submitted in the year
    2100. *)
Definition dated : Testnet.Chain :=
  {| Testnet.bridge :=
       {| Testnet.requests :=
            [{| Testnet.e_account := "0xabc"%string; Testnet.e_key := 3;
                Testnet.e_blockId := 18000000;
                Testnet.e_submittedAt := 4102444800;
                Testnet.e_served := false; Testnet.e_reply := [] |}];
          Testnet.events := [] |};
     Testnet.online := true;
     Testnet.mempool := [];
     Testnet.mine := [];
     Testnet.cursors := [];
     Testnet.schedule := [] |}.

End Time32.

(** * Shapes of traces *)

Module Shapes.

(** Every call of the trace answered. *)
Definition all_answered {T : Type} (t : list (T * bool)) : Prop :=
  Forall (fun entry => snd entry = true) t.

(** A run that made no call after a call that raised: either every call
    answered, or the run raised and the one call that did not answer is its
    last. *)
Definition stopped_at_failure {W T A : Type} (r : Run W T A) : Prop :=
  match result r with
  | Raise _ =>
      all_answered (trace r) \/
      exists t c, trace r = t ++ [(c, false)] /\ all_answered t
  | _ => all_answered (trace r)
  end.

(** A run that has not returned: it is still looping or it raised. *)
Definition not_returned {W T A : Type} (r : Run W T A) : Prop :=
  result r = OutOfFuel \/ exists x, result r = Raise x.

(** [n] polls without entries, each followed by the sleep of two seconds. *)
Fixpoint empty_polls (n : nat) (f : Bot.EventFilter)
  : list (Bot.Call * bool) :=
  match n with
  | O => []
  | S n' =>
      (Bot.GetNewEntries f, true) :: (Bot.Sleep 2, true) :: empty_polls n' f
  end.

End Shapes.

(** * The steps of the relay, read on the gateway *)

Module Steps.
Import Listener Claims.

Section Steps.
Context {W : Type} {G : Gateway W}.

(** From the world [w] every step for the event [e] answers in turn: the
    block, the proof for the one key, a state proof out of them, the
    [verify] transaction and its receipt.  [completes e w w' t] gives the
    world [w'] the receipt leaves and the calls [t] that were made. *)
Inductive completes (e : RequestLogged) (w : W)
  : W -> list (Call * bool) -> Prop :=
| completes_intro block w1 proof w2 built txn_hash w3 receipt w4 :
    get_block (blockId e) w = (inr block, w1) ->
    get_proof (account e) [key e] (blockId e) w1 = (inr proof, w2) ->
    stateProof block (account e) proof = inr built ->
    verify_transact (requestId e) built w2 = (inr txn_hash, w3) ->
    wait_for_transaction_receipt txn_hash w3 = (inr receipt, w4) ->
    completes e w w4
      (map (fun c => (c, true))
           (calls_of e built txn_hash (sp_storageValue built))).

(** From the world [w] one step for the event [e] raises [x], the steps
    before it having answered: the read of the block, the read of the
    proof, the construction of the state proof (no storage-proof entry),
    the [verify] transaction, or the wait for its receipt.  [fails e w x w'
    t] gives the world [w'] the failed step leaves and the calls [t] made up
    to it. *)
Inductive fails (e : RequestLogged) (w : W)
  : Exn -> W -> list (Call * bool) -> Prop :=
| fails_block x w1 :
    get_block (blockId e) w = (inl x, w1) ->
    fails e w x w1 [(GetBlock (blockId e), false)]
| fails_proof block w1 x w2 :
    get_block (blockId e) w = (inr block, w1) ->
    get_proof (account e) [key e] (blockId e) w1 = (inl x, w2) ->
    fails e w x w2
      [ (GetBlock (blockId e), true);
        (GetProof (account e) [key e] (blockId e), false) ]
| fails_entry block w1 proof w2 x :
    get_block (blockId e) w = (inr block, w1) ->
    get_proof (account e) [key e] (blockId e) w1 = (inr proof, w2) ->
    stateProof block (account e) proof = inl x ->
    fails e w x w2
      [ (GetBlock (blockId e), true);
        (GetProof (account e) [key e] (blockId e), true) ]
| fails_verify block w1 proof w2 built x w3 :
    get_block (blockId e) w = (inr block, w1) ->
    get_proof (account e) [key e] (blockId e) w1 = (inr proof, w2) ->
    stateProof block (account e) proof = inr built ->
    verify_transact (requestId e) built w2 = (inl x, w3) ->
    fails e w x w3
      [ (GetBlock (blockId e), true);
        (GetProof (account e) [key e] (blockId e), true);
        (VerifyTransact (requestId e) built, false) ]
| fails_receipt block w1 proof w2 built txn_hash w3 x w4 :
    get_block (blockId e) w = (inr block, w1) ->
    get_proof (account e) [key e] (blockId e) w1 = (inr proof, w2) ->
    stateProof block (account e) proof = inr built ->
    verify_transact (requestId e) built w2 = (inr txn_hash, w3) ->
    wait_for_transaction_receipt txn_hash w3 = (inl x, w4) ->
    fails e w x w4
      [ (GetBlock (blockId e), true);
        (GetProof (account e) [key e] (blockId e), true);
        (VerifyTransact (requestId e) built, true);
        (WaitForReceipt txn_hash, false) ].

(** A batch gone through in its order, from the world [w]: the steps of an
    event start in the world the receipt of the previous event left, and
    the first event with a step that raises ends the batch with that
    exception.  [handles batch w r w' t] gives the outcome [r], the last
    world [w'] and all the calls [t]. *)
Inductive handles
  : list RequestLogged -> W -> Result unit -> W -> list (Call * bool) -> Prop :=
| handles_nil w : handles [] w (Ok tt) w []
| handles_next e es w w' t r w'' t' :
    completes e w w' t ->
    handles es w' r w'' t' ->
    handles (e :: es) w r w'' (t ++ t')
| handles_stop e es w x w' t :
    fails e w x w' t ->
    handles (e :: es) w (Raise x) w' t.

End Steps.

End Steps.

(** * What the chat received *)

Module Chatting.

(** The messages the chat took, in order. *)
Fixpoint delivered (t : list (Bot.Call * bool)) : list Bot.Message :=
  match t with
  | [] => []
  | (Bot.ReplyText m, true) :: rest => m :: delivered rest
  | _ :: rest => delivered rest
  end.

(** The tuple [msg] that [getRequest] answered can be turned into the
    message about the request: it has the fields 0 to 7, field 3 is a
    timestamp [datetime.fromtimestamp] takes and field 7 has [hex]. *)
Definition readable {P : Bot.Platform} (msg : list Bot.PyVal)
  (address key block : Bot.PyVal) (date : Bot.DateTime) (served : Bot.PyVal)
  (resp : bytes) : Prop :=
  item msg 0 = inr address /\
  item msg 1 = inr key /\
  item msg 2 = inr block /\
  (exists msg3, item msg 3 = inr msg3 /\
                Bot.datetime_fromtimestamp msg3 = inr date) /\
  item msg 6 = inr served /\
  (exists msg7, item msg 7 = inr msg7 /\ Bot.hex msg7 = inr resp).

(** The chat takes every message. *)
Definition takes_all {W : Type} (C : Bot.Chat W) : Prop :=
  forall message w, exists w', Bot.deliver message w = (inr tt, w').

End Chatting.

(** * Properties *)

Module Facts.
Import Listener Claims.

(** ** Computations *)

Lemma bind_ok {W T A B} (m : M W T A) (k : A -> M W T B) (w : W) (a : A) :
  result (m w) = Ok a ->
  bind m k w =
  mkRun (result (k a (final (m w)))) (final (k a (final (m w))))
        (trace (m w) ++ trace (k a (final (m w)))).
Proof.
  unfold bind. destruct (m w) as [r w1 t1]. simpl. intros ->.
  destruct (k _ w1); reflexivity.
Qed.

Lemma bind_raise {W T A B} (m : M W T A) (k : A -> M W T B) (w : W) (x : Exn) :
  result (m w) = Raise x ->
  bind m k w = mkRun (Raise x) (final (m w)) (trace (m w)).
Proof.
  unfold bind. destruct (m w) as [r w1 t1]. simpl. intros ->. reflexivity.
Qed.

Lemma bind_out_of_fuel {W T A B} (m : M W T A) (k : A -> M W T B) (w : W) :
  result (m w) = OutOfFuel ->
  bind m k w = mkRun OutOfFuel (final (m w)) (trace (m w)).
Proof.
  unfold bind. destruct (m w) as [r w1 t1]. simpl. intros ->. reflexivity.
Qed.

Lemma perform_ok {W T A} (act : T) (f : W -> (Exn + A) * W) w a w' :
  f w = (inr a, w') -> perform act f w = mkRun (Ok a) w' [(act, true)].
Proof. intros H. unfold perform. rewrite H. reflexivity. Qed.

Lemma perform_raise {W T A} (act : T) (f : W -> (Exn + A) * W) w x w' :
  f w = (inl x, w') -> perform act f w = mkRun (Raise x) w' [(act, false)].
Proof. intros H. unfold perform. rewrite H. reflexivity. Qed.

Lemma for_each_app {W T A} (body : A -> M W T unit) (pre post : list A) (w : W) :
  result (for_each body pre w) = Ok tt ->
  for_each body (pre ++ post) w =
  mkRun (result (for_each body post (final (for_each body pre w))))
        (final (for_each body post (final (for_each body pre w))))
        (trace (for_each body pre w) ++
         trace (for_each body post (final (for_each body pre w)))).
Proof.
  revert w. induction pre as [|a pre IH]; intros w H.
  - simpl. destruct (for_each body post w); reflexivity.
  - simpl in H |- *. unfold bind in H |- *.
    destruct (body a w) as [[[]|x|] w1 t1]; try discriminate.
    assert (H' : result (for_each body pre w1) = Ok tt)
      by (destruct (for_each body pre w1); exact H).
    rewrite (IH _ H').
    destruct (for_each body pre w1) as [r2 w2 t2]. simpl.
    rewrite app_assoc. reflexivity.
Qed.

(** ** [pad_bytes] *)

Lemma pad_bytes_length (fill : byte) (n : nat) (b : bytes) :
  length (pad_bytes fill n b) = Nat.max n (length b).
Proof.
  unfold pad_bytes. rewrite length_app, repeat_length. lia.
Qed.

Lemma pad_bytes_wide (fill : byte) (n : nat) (b : bytes) :
  (n <= length b)%nat -> pad_bytes fill n b = b.
Proof.
  intros H. unfold pad_bytes.
  replace (n - length b)%nat with 0%nat by lia. reflexivity.
Qed.

(** ** [handle_event] *)

(** [handle_event] either goes through all its calls or raises after some
    of them; it never loops. *)
Lemma handle_event_cases {W} {G : Gateway W} (e : RequestLogged) (w : W) :
  (result (handle_event e w) = Ok tt /\ handled e (trace (handle_event e w)))
  \/ (exists x, result (handle_event e w) = Raise x /\
                interrupted e (trace (handle_event e w))).
Proof.
  pose (p0 := Build_StateProof [] EmptyString [] [] [] [] []).
  unfold handle_event, bind, perform, lift, print.
  destruct (get_block (blockId e) w) as [[x|blk] w1]; simpl.
  { right. exists x. split; [reflexivity|].
    exists p0, [], [], 1%nat. repeat split; [lia|].
    intros h' [H|[]]; discriminate. }
  destruct (get_proof (account e) [key e] (blockId e) w1) as [[x|prf] w2]; simpl.
  { right. exists x. split; [reflexivity|].
    exists p0, [], [], 2%nat. repeat split; [lia|].
    intros h' [H|[H|[]]]; discriminate. }
  unfold stateProof, item.
  destruct (storageProof prf) as [|entry rest]; simpl.
  { right. exists IndexError. split; [reflexivity|].
    exists p0, [], [], 2%nat. repeat split; [lia|].
    intros h' [H|[H|[]]]; discriminate. }
  match goal with |- context [verify_transact ?i ?p ?w] =>
    set (sp := p); destruct (verify_transact i sp w) as [[x|h] w3] end; simpl.
  { right. exists x. split; [reflexivity|].
    exists sp, [], [], 3%nat. repeat split; [lia|].
    intros h' [H|[H|[H|[]]]]; discriminate. }
  destruct (wait_for_transaction_receipt h w3) as [[x|rcpt] w4]; simpl.
  { right. exists x. split; [reflexivity|].
    exists sp, h, [], 4%nat. repeat split; [lia|].
    intros h' [H|[H|[H|[H|[]]]]]; discriminate. }
  left. split; [reflexivity|].
  exists sp, h, (entry_value entry). reflexivity.
Qed.

Lemma interrupted_no_print (e : RequestLogged) (t : list (Call * bool)) :
  interrupted e t -> printed t = [].
Proof.
  intros (p & h & v & n & Hn & Hm & _).
  destruct n as [|[|[|[|[|n]]]]]; try lia; simpl in Hm;
    repeat match type of Hm with
           | context [map fst ?l] =>
               is_var l; destruct l as [|[? ?] ?]; simpl in Hm; try discriminate
           end;
    try (inversion Hm; subst); reflexivity.
Qed.

Lemma interrupted_no_receipt (e : RequestLogged) (t : list (Call * bool)) :
  interrupted e t ->
  forall h, ~ In (WaitForReceipt h, true) t.
Proof. intros (p & h & v & n & _ & _ & H). exact H. Qed.

Lemma handled_submission (e : RequestLogged) (t : list (Call * bool)) :
  handled e t -> map fst (submissions t) = [requestId e].
Proof. intros (p & h & v & ->). reflexivity. Qed.

Lemma submissions_app (t t' : list (Call * bool)) :
  submissions (t ++ t') = submissions t ++ submissions t'.
Proof.
  induction t as [|[c b] t IH]; simpl; [reflexivity|].
  destruct c; try exact IH. destruct b; simpl; [f_equal|]; exact IH.
Qed.

(** ** The polling loop *)

Lemma log_loop_step {W} {G : Gateway W} (fuel : nat) (f : FilterId)
  (interval : Z) (w w1 : W) (entries : list RequestLogged) :
  get_new_entries f w = (inr entries, w1) ->
  log_loop (S fuel) f interval w =
  match result (for_each handle_event entries w1) with
  | Ok _ =>
      let w2 := sleep interval (final (for_each handle_event entries w1)) in
      mkRun (result (log_loop fuel f interval w2))
            (final (log_loop fuel f interval w2))
            ((GetNewEntries f, true) ::
             trace (for_each handle_event entries w1) ++
             (Sleep interval, true) :: trace (log_loop fuel f interval w2))
  | Raise x =>
      mkRun (Raise x) (final (for_each handle_event entries w1))
            ((GetNewEntries f, true) :: trace (for_each handle_event entries w1))
  | OutOfFuel =>
      mkRun OutOfFuel (final (for_each handle_event entries w1))
            ((GetNewEntries f, true) :: trace (for_each handle_event entries w1))
  end.
Proof.
  intros H. simpl. unfold bind, perform. rewrite H.
  destruct (for_each handle_event entries w1) as [[[]|x|] w2 t2]; simpl;
    try reflexivity.
  destruct (log_loop fuel f interval (sleep interval w2)); reflexivity.
Qed.

#[local] Existing Instance Devnet.gateway.
#[local] Existing Instance Testnet.gateway.
#[local] Existing Instance Testnet.platform.

(** A statement that does not name its chat is about the chat that takes
    every message. *)
#[local] Existing Instance Bot.reliable.

(** C1, as stated, fails: a request for a block the mainnet does not have
    makes [get_block] raise; the exception leaves [handle_event], the loop
    and [main].  Nothing is printed about it, the event that came after it
    in the batch is never handled and there is no further poll. *)
Lemma unknown_block_ends_relay :
  let run := main 5 (Scenario.devnet false
                       [[Scenario.event43; Scenario.event42];
                        [Scenario.event42]]) in
  result run = Raise BlockNotFound /\
  trace run =
    [ (Print Banner, true); (CreateFilter, true);
      (GetNewEntries 0%nat, true); (GetBlock 18000500, false);
      (LoopClose, true) ] /\
  Devnet.queue (final run) = [[Scenario.event42]].
Proof. vm_compute. repeat split. Qed.

(** What [handle_event] does when the steps answer, and when one raises. *)
Lemma handle_event_completes {W} {G : Gateway W} (e : RequestLogged)
  (w w' : W) (t : list (Call * bool)) :
  Steps.completes e w w' t -> handle_event e w = mkRun (Ok tt) w' t.
Proof.
  intros [block w1 proof w2 built h w3 receipt w4 Hb Hp Hs Hv Hr].
  unfold handle_event, bind, perform, lift, print.
  rewrite Hb, Hp, Hs. simpl. rewrite Hv, Hr. simpl.
  unfold stateProof, item in Hs |- *.
  destruct (storageProof proof) as [|entry rest]; simpl in Hs |- *;
    [discriminate|].
  injection Hs as <-. reflexivity.
Qed.

Lemma handle_event_fails {W} {G : Gateway W} (e : RequestLogged)
  (w w' : W) (x : Exn) (t : list (Call * bool)) :
  Steps.fails e w x w' t -> handle_event e w = mkRun (Raise x) w' t.
Proof.
  intros H; destruct H as
      [x w1 Hb
      |block w1 x w2 Hb Hp
      |block w1 proof w2 x Hb Hp Hs
      |block w1 proof w2 built x w3 Hb Hp Hs Hv
      |block w1 proof w2 built h w3 x w4 Hb Hp Hs Hv Hr];
    unfold handle_event, bind, perform, lift, print; rewrite Hb;
    try rewrite Hp; try rewrite Hs; simpl;
    try rewrite Hv; try rewrite Hr; reflexivity.
Qed.

(** In every world the steps for an event either all answer or one of
    them raises. *)
Lemma steps_answer_or_raise {W} {G : Gateway W} (e : RequestLogged) (w : W) :
  (exists w' t, Steps.completes e w w' t) \/
  (exists x w' t, Steps.fails e w x w' t).
Proof.
  destruct (get_block (blockId e) w) as [[x|block] w1] eqn:Hb.
  { right. eexists _, _, _. eapply Steps.fails_block. exact Hb. }
  destruct (get_proof (account e) [key e] (blockId e) w1)
    as [[x|proof] w2] eqn:Hp.
  { right. eexists _, _, _. eapply Steps.fails_proof; eassumption. }
  destruct (stateProof block (account e) proof) as [x|built] eqn:Hs.
  { right. eexists _, _, _. eapply Steps.fails_entry; eassumption. }
  destruct (verify_transact (requestId e) built w2) as [[x|h] w3] eqn:Hv.
  { right. eexists _, _, _. eapply Steps.fails_verify; eassumption. }
  destruct (wait_for_transaction_receipt h w3) as [[x|receipt] w4] eqn:Hr.
  { right. eexists _, _, _. eapply Steps.fails_receipt; eassumption. }
  left. eexists _, _. eapply Steps.completes_intro; eassumption.
Qed.

Lemma fails_prints_nothing {W} {G : Gateway W} (e : RequestLogged) (w w' : W)
  (x : Exn) (t : list (Call * bool)) :
  Steps.fails e w x w' t -> printed t = [].
Proof. intros H; destruct H; reflexivity. Qed.

(** The for loop over a batch does what [Steps.handles] says. *)
Lemma for_each_handles_run {W} {G : Gateway W} (batch : list RequestLogged)
  (w w' : W) (r : Result unit) (t : list (Call * bool)) :
  Steps.handles batch w r w' t ->
  for_each handle_event batch w = mkRun r w' t.
Proof.
  intros H. induction H as [w|e es w w' t r w'' t' Hc _ IH|e es w x w' t Hf].
  - reflexivity.
  - simpl. unfold bind. rewrite (handle_event_completes _ _ _ _ Hc), IH.
    reflexivity.
  - simpl. unfold bind. rewrite (handle_event_fails _ _ _ _ _ Hf).
    reflexivity.
Qed.

Lemma for_each_handles {W} {G : Gateway W} (batch : list RequestLogged)
  (w : W) :
  Steps.handles batch w
    (result (for_each handle_event batch w))
    (final (for_each handle_event batch w))
    (trace (for_each handle_event batch w)).
Proof.
  revert w. induction batch as [|e es IH]; intros w.
  - constructor.
  - simpl. unfold bind.
    destruct (steps_answer_or_raise e w) as [(w' & t & Hc)|(x & w' & t & Hf)].
    + rewrite (handle_event_completes _ _ _ _ Hc).
      specialize (IH w').
      destruct (for_each handle_event es w') as [r w'' t']. simpl in IH |- *.
      exact (Steps.handles_next _ _ _ _ _ _ _ _ Hc IH).
    + rewrite (handle_event_fails _ _ _ _ _ Hf). simpl.
      exact (Steps.handles_stop _ _ _ _ _ _ Hf).
Qed.

(** C1, amended: an exception raised by a step of the handling of an event
    is caught neither by [handle_event] nor by [log_loop].  When a poll
    returns a batch, the events before [e] are handled, and a step for [e]
    raises (the read of the block or of the proof, the construction of the
    state proof for want of a storage-proof entry, the [verify]
    transaction, the wait for its receipt), the loop ends with that
    exception in the world the failed step left: the failed step is its
    last call, nothing is printed for the event, the events after it are
    not handled and no further poll is made. *)
Theorem failure_ends_log_loop {W} {G : Gateway W} (fuel : nat) (f : FilterId)
  (interval : Z) (w w1 w2 w3 : W) (pre post : list RequestLogged)
  (e : RequestLogged) (x : Exn) (t_pre t : list (Call * bool)) :
  get_new_entries f w = (inr (pre ++ e :: post), w1) ->
  Steps.handles pre w1 (Ok tt) w2 t_pre ->
  Steps.fails e w2 x w3 t ->
  log_loop (S fuel) f interval w =
    mkRun (Raise x) w3 ((GetNewEntries f, true) :: t_pre ++ t) /\
  printed t = [].
Proof.
  intros Hpoll Hpre Hfail. split; [|exact (fails_prints_nothing _ _ _ _ _ Hfail)].
  pose proof (for_each_handles_run _ _ _ _ _ Hpre) as Hrun.
  assert (Hok : result (for_each handle_event pre w1) = Ok tt)
    by (rewrite Hrun; reflexivity).
  rewrite (log_loop_step _ _ _ _ _ _ Hpoll), (for_each_app _ _ _ _ Hok).
  rewrite Hrun. cbn [for_each final trace result].
  unfold bind. rewrite (handle_event_fails _ _ _ _ _ Hfail). reflexivity.
Qed.

Lemma failure_ends_log_loop_witness :
  result (log_loop 3 0%nat 2
            (Scenario.devnet false
               [[Scenario.event42; Scenario.event43; Scenario.event42]]))
  = Raise BlockNotFound.
Proof.
  assert (H : exists w3 t_pre t,
             log_loop 3 0%nat 2
               (Scenario.devnet false
                  [[Scenario.event42; Scenario.event43; Scenario.event42]])
             = mkRun (Raise BlockNotFound) w3
                 ((GetNewEntries 0%nat, true) :: t_pre ++ t)).
  { eexists _, _, _.
    refine (proj1 (failure_ends_log_loop (G := Devnet.gateway) 2 0%nat 2
                     _ _ _ _ [Scenario.event42] [Scenario.event42]
                     Scenario.event43 BlockNotFound _ _ _ _ _)).
    - reflexivity.
    - eapply Steps.handles_next;
        [eapply Steps.completes_intro; reflexivity | apply Steps.handles_nil].
    - apply Steps.fails_block. reflexivity. }
  destruct H as (w3 & t_pre & t & H). rewrite H. reflexivity.
Defined.

(** C6: the events of a polled batch are handled one after the other in
    the order of the batch: the loop makes, for each event in turn, the
    calls for its block, its proof, its [verify] transaction and the
    receipt of that transaction, and the calls for an event start in the
    world the receipt of the previous event left.  When every event is
    handled the loop sleeps and polls again; when a step raises the loop
    ends there. *)
Theorem log_loop_handles_batch_in_order {W} {G : Gateway W} (fuel : nat)
  (f : FilterId) (interval : Z) (w w1 : W) (batch : list RequestLogged) :
  get_new_entries f w = (inr batch, w1) ->
  exists r w2 t,
    Steps.handles batch w1 r w2 t /\
    log_loop (S fuel) f interval w =
    match r with
    | Ok _ =>
        mkRun (result (log_loop fuel f interval (sleep interval w2)))
              (final (log_loop fuel f interval (sleep interval w2)))
              ((GetNewEntries f, true) :: t ++
               (Sleep interval, true) ::
               trace (log_loop fuel f interval (sleep interval w2)))
    | Raise x => mkRun (Raise x) w2 ((GetNewEntries f, true) :: t)
    | OutOfFuel => mkRun OutOfFuel w2 ((GetNewEntries f, true) :: t)
    end.
Proof.
  intros Hpoll.
  exists (result (for_each handle_event batch w1)),
         (final (for_each handle_event batch w1)),
         (trace (for_each handle_event batch w1)).
  split; [apply for_each_handles|].
  exact (log_loop_step fuel f interval w w1 batch Hpoll).
Qed.

Lemma log_loop_handles_batch_in_order_witness :
  exists w2 t,
    Steps.handles (G := Devnet.gateway)
      [Scenario.event42; Scenario.event42]
      (Scenario.devnet false []) (Ok tt) w2 t /\
    trace (log_loop 1 0%nat 2
             (Scenario.devnet false [[Scenario.event42; Scenario.event42]]))
    = (GetNewEntries 0%nat, true) :: t ++ [(Sleep 2, true)].
Proof.
  destruct (log_loop_handles_batch_in_order (G := Devnet.gateway) 0 0%nat 2
              (Scenario.devnet false [[Scenario.event42; Scenario.event42]])
              (Scenario.devnet false [])
              [Scenario.event42; Scenario.event42] eq_refl)
    as (r & w2 & t & Hh & Hrun).
  pose proof (for_each_handles_run _ _ _ _ _ Hh) as Hfor.
  assert (Hr : r = Ok tt).
  { change r with (result (mkRun (W := Devnet.World) (T := Call) r w2 t)).
    rewrite <- Hfor. reflexivity. }
  subst r. exists w2, t. split; [exact Hh|].
  rewrite Hrun. reflexivity.
Defined.

(** The exception also leaves [main]: [finally] closes the event loop and
    raises it again. *)
Lemma main_reraises {W} {G : Gateway W} (fuel : nat) (w w1 : W) (f : FilterId)
  (x : Exn) :
  createFilter w = (inr f, w1) ->
  result (log_loop fuel f 2 w1) = Raise x ->
  result (main fuel w) = Raise x.
Proof.
  intros Hf Hl. unfold main, print, bind, perform, try_finally. simpl.
  rewrite Hf.
  destruct (log_loop fuel f 2 w1) as [r w2 t2]. simpl in Hl. subst r.
  reflexivity.
Qed.

(** C2, as stated, fails: the same RequestLogged event returned by two
    polls is handled twice, and a Bridge that takes the second [verify] as a
    no-op receives two verification transactions for the request 42. *)
Lemma replayed_event_submitted_twice :
  let once := log_loop 2 0%nat 2 (Scenario.devnet false [[Scenario.event42]]) in
  let twice := log_loop 2 0%nat 2
                 (Scenario.devnet false
                    [[Scenario.event42]; [Scenario.event42]]) in
  map fst (submissions (trace once)) = [42] /\
  map fst (submissions (trace twice)) = [42; 42] /\
  map fst (Devnet.accepted (final twice)) = [42; 42].
Proof. vm_compute. repeat split. Qed.

(** With a Bridge that reverts the repeated [verify], the second handling
    of the event raises at the submission, and the loop ends there. *)
Lemma replayed_event_reverted_ends_relay :
  let twice := log_loop 2 0%nat 2
                 (Scenario.devnet true
                    [[Scenario.event42]; [Scenario.event42]]) in
  result twice = Raise ContractLogicError /\
  map fst (submissions (trace twice)) = [42].
Proof. vm_compute. repeat split. Qed.

(** C2, amended: the relay keeps no record of the requests it has handled.
    When a sequence of events is handled to its end, one [verify]
    transaction is submitted per event of the sequence, in order: an event
    that occurs twice in it is submitted twice. *)
Theorem one_submission_per_event {W} {G : Gateway W}
  (events : list RequestLogged) (w : W) :
  result (for_each handle_event events w) = Ok tt ->
  map fst (submissions (trace (for_each handle_event events w)))
  = map requestId events.
Proof.
  revert w. induction events as [|e es IH]; intros w H; [reflexivity|].
  simpl in H |- *.
  destruct (handle_event_cases e w) as [[Hr Ht] | (x & Hr & _)].
  - rewrite (bind_ok _ _ _ _ Hr) in H |- *. simpl in H |- *.
    rewrite submissions_app, map_app, (handled_submission _ _ Ht), (IH _ H).
    reflexivity.
  - rewrite (bind_raise _ _ _ _ Hr) in H. discriminate.
Qed.

Lemma one_submission_per_event_witness :
  map fst (submissions
             (trace (for_each handle_event
                       [Scenario.event42; Scenario.event42]
                       (Scenario.devnet false []))))
  = [42; 42].
Proof.
  exact (one_submission_per_event [Scenario.event42; Scenario.event42]
           (Scenario.devnet false []) eq_refl).
Defined.

(** ** The state proof *)

Lemma stateProof_first_entry (block : Block) (account : Address)
  (proof : ProofResponse) (entry : StorageEntry) (rest : list StorageEntry) :
  storageProof proof = entry :: rest ->
  stateProof block account proof =
  inr {| sp_stateRoot := stateRoot block;
         sp_account := account;
         sp_accountProof := accountProof proof;
         sp_storageHash := storageHash proof;
         sp_storageKey := pad_bytes x00 32 (entry_key entry);
         sp_storageValue := entry_value entry;
         sp_storageProof := entry_proof entry |}.
Proof. intros H. unfold stateProof, item. rewrite H. reflexivity. Qed.

Lemma stateProof_no_entry (block : Block) (account : Address)
  (proof : ProofResponse) :
  storageProof proof = [] ->
  stateProof block account proof = inl IndexError.
Proof. intros H. unfold stateProof, item. rewrite H. reflexivity. Qed.

(** When the answer is about the requested account and its first entry is
    the one of the requested key, what [handle_event] builds is what the
    specification describes. *)
Lemma stateProof_agrees_with_spec (block : Block) (account : Address)
  (key : Z) (proof : ProofResponse) (entry : StorageEntry)
  (rest : list StorageEntry) :
  storageProof proof = entry :: rest ->
  matches key entry = true ->
  address proof = account ->
  match spec_stateProof block proof key with
  | Some p => stateProof block account proof = inr p
  | None => False
  end.
Proof.
  intros H Hm Ha. unfold spec_stateProof. rewrite H. simpl. rewrite Hm, Ha.
  exact (stateProof_first_entry _ _ _ _ _ H).
Qed.

(** C3, as stated, fails: the answer holds an entry for the requested slot
    3, after an entry for the slot 5; the proof that is built carries the
    key, value and proof of the entry for the slot 5. *)
Lemma first_entry_not_the_matching_one :
  existsb (matches 3) (storageProof Scenario.two_entries) = true /\
  exists built described,
    stateProof Scenario.header (address Scenario.two_entries)
      Scenario.two_entries = inr built /\
    spec_stateProof Scenario.header Scenario.two_entries 3 = Some described /\
    bytes_to_Z (sp_storageValue described) = 44 /\
    bytes_to_Z (sp_storageValue built) = 46 /\
    built <> described.
Proof.
  split; [reflexivity|].
  eexists. eexists. split; [reflexivity|]. split; [reflexivity|].
  split; [reflexivity|]. split; [reflexivity|]. discriminate.
Qed.

(** C3, amended: when [get_block] answers a header and [get_proof] answers a
    proof response with at least one storage-proof entry, the relay submits
    [verify] with the request's identifier and the state proof whose
    stateRoot is the header's, whose account is the account of the event,
    whose accountProof and storageHash come from the proof response and
    whose storageKey (padded), storageValue and storageProof are those of
    the first storage-proof entry of the response. *)
Theorem verify_carries_first_entry {W} {G : Gateway W} (event : RequestLogged)
  (w w1 w2 : W) (block : Block) (proof : ProofResponse)
  (entry : StorageEntry) (rest : list StorageEntry) :
  get_block (blockId event) w = (inr block, w1) ->
  get_proof (account event) [key event] (blockId event) w1 = (inr proof, w2) ->
  storageProof proof = entry :: rest ->
  exists answered,
    nth_error (trace (handle_event event w)) 2 =
    Some (VerifyTransact (requestId event)
            {| sp_stateRoot := stateRoot block;
               sp_account := account event;
               sp_accountProof := accountProof proof;
               sp_storageHash := storageHash proof;
               sp_storageKey := pad_bytes x00 32 (entry_key entry);
               sp_storageValue := entry_value entry;
               sp_storageProof := entry_proof entry |},
          answered).
Proof.
  intros Hb Hp He. unfold handle_event, bind, perform, lift.
  rewrite Hb. simpl. rewrite Hp. simpl.
  rewrite (stateProof_first_entry _ _ _ _ _ He). simpl.
  match goal with |- context [verify_transact ?i ?p ?w] =>
    destruct (verify_transact i p w) as [[x|h] w3] end; simpl.
  - exists false. reflexivity.
  - exists true.
    destruct (wait_for_transaction_receipt h w3) as [[x|r] w4];
      [reflexivity|].
    unfold item. rewrite He. reflexivity.
Qed.

Lemma verify_carries_first_entry_witness :
  exists answered,
    nth_error (trace (handle_event Scenario.event42
                        (Scenario.devnet false []))) 2 =
    Some (VerifyTransact 42
            {| sp_stateRoot := Devnet.be_bytes 32 18000001;
               sp_account := "0xabc"%string;
               sp_accountProof := [];
               sp_storageHash := [x07];
               sp_storageKey := repeat x00 31 ++ [x03];
               sp_storageValue := [x2c];
               sp_storageProof := [] |},
          answered).
Proof.
  exact (verify_carries_first_entry Scenario.event42
           (Scenario.devnet false []) _ _ _ _ (Devnet.entry_for 3) []
           eq_refl eq_refl eq_refl).
Defined.

(** C4, as stated, fails: [pad_bytes] fills up to 32 bytes and cuts
    nothing; the key of 33 bytes of this answer is passed on as it is. *)
Lemma wide_key_not_cut :
  exists built,
    stateProof Scenario.header "0xabc"%string Scenario.wide_key = inr built /\
    length (sp_storageKey built) = 33%nat.
Proof. eexists. split; reflexivity. Qed.

(** C4, amended: whenever the key of the first storage-proof entry is at
    most 32 bytes long, as every 256-bit slot key is, the storageKey of the
    state proof is exactly 32 bytes long: zero bytes on the left, then the
    key. *)
Theorem storageKey_is_32_bytes (block : Block) (account : Address)
  (proof : ProofResponse) (entry : StorageEntry) (rest : list StorageEntry) :
  storageProof proof = entry :: rest ->
  (length (entry_key entry) <= 32)%nat ->
  exists built,
    stateProof block account proof = inr built /\
    length (sp_storageKey built) = 32%nat /\
    sp_storageKey built =
      repeat x00 (32 - length (entry_key entry)) ++ entry_key entry.
Proof.
  intros He Hlen. eexists. split; [apply (stateProof_first_entry _ _ _ _ _ He)|].
  simpl. split; [|reflexivity].
  rewrite pad_bytes_length. lia.
Qed.

Lemma storageKey_is_32_bytes_witness :
  exists built,
    stateProof Scenario.header "0xabc"%string Scenario.slot1 = inr built /\
    length (sp_storageKey built) = 32%nat /\
    sp_storageKey built = repeat x00 31 ++ [x01].
Proof.
  exact (storageKey_is_32_bytes Scenario.header "0xabc"%string Scenario.slot1
           (Devnet.entry_for 1) [] eq_refl
           ltac:(vm_compute; repeat constructor)).
Defined.

(** ** The status check *)

(** C5, as stated, fails: asked for the request 43 of a Bridge that holds
    the requests 0 to 42, the node that is down raises a transport error
    and the node that is up reverts the call; the bot sends the same
    not-found message in both cases. *)
Lemma transport_failure_reported_as_not_found :
  fst (Bot.getRequest 43 (Scenario.testnet 43 false [])) = inl TransportError /\
  fst (Bot.getRequest 43 (Scenario.testnet 43 true [])) = inl ContractLogicError /\
  replies (trace (Bot.check ["43"%string] (Scenario.testnet 43 false [])))
  = [Bot.NotFound 43] /\
  replies (trace (Bot.check ["43"%string] (Scenario.testnet 43 true [])))
  = [Bot.NotFound 43].
Proof. vm_compute. repeat split. Qed.

(** C5, amended: when [getRequest] fails for the requested identifier, for
    whatever reason (the revert for an unknown identifier, a transport
    error, anything else), [check] catches the exception and answers with
    the one not-found message: the reasons are not told apart. *)
Theorem every_failure_reported_as_not_found {W} {P : Bot.Platform}
  {G : Bot.Gateway W} (args : list string) (arg0 : string)
  (rest : list string) (requestId : Z) (w w' : W) (x : Exn) :
  args = arg0 :: rest ->
  Bot.py_int arg0 = inr requestId ->
  Bot.getRequest requestId w = (inl x, w') ->
  result (Bot.check args w) = Ok tt /\
  trace (Bot.check args w) =
    [ (Bot.GetRequest requestId, false);
      (Bot.ReplyText (Bot.NotFound requestId), true) ] /\
  replies (trace (Bot.check args w)) = [Bot.NotFound requestId].
Proof.
  intros -> Hid Hget.
  unfold Bot.check, bind, try_except, perform, lift, Bot.reply_text.
  simpl. rewrite Hid. simpl. rewrite Hget. simpl. repeat split.
Qed.

Lemma every_failure_reported_as_not_found_witness :
  replies (trace (Bot.check ["43"%string] (Scenario.testnet 43 false [])))
  = [Bot.NotFound 43].
Proof.
  exact (proj2 (proj2
    (every_failure_reported_as_not_found ["43"%string] "43"%string [] 43
       (Scenario.testnet 43 false []) _ TransportError
       eq_refl eq_refl eq_refl))).
Defined.

(** ** The wait for the served event *)

Section Waiting.
Context {W : Type} {P : Bot.Platform} {G : Bot.Gateway W}.

Lemma listen_loop_restart (fuel : nat) (f : Bot.EventFilter)
  (entries entries' : option (list Bot.RequestServed)) (w : W) :
  Bot.listen_loop fuel f false entries w
  = Bot.listen_loop fuel f false entries' w.
Proof. destruct fuel; reflexivity. Qed.

Lemma listen_poll_raises (fuel : nat) (f : Bot.EventFilter) (w w' : W)
  (x : Exn) :
  Bot.get_new_entries f w = (inl x, w') ->
  Bot.listen (S fuel) f w = mkRun (Raise x) w' [(Bot.GetNewEntries f, false)].
Proof.
  intros H. unfold Bot.listen. simpl. unfold bind, perform. rewrite H.
  reflexivity.
Qed.

Lemma listen_poll_entries (fuel : nat) (f : Bot.EventFilter) (w w' : W)
  (ev : Bot.RequestServed) (rest : list Bot.RequestServed) :
  Bot.get_new_entries f w = (inr (ev :: rest), w') ->
  Bot.listen (S fuel) f w = mkRun (Ok ev) w' [(Bot.GetNewEntries f, true)].
Proof.
  intros H. unfold Bot.listen. simpl. unfold bind, perform. rewrite H.
  simpl. destruct fuel; reflexivity.
Qed.

Lemma listen_poll_empty (fuel : nat) (f : Bot.EventFilter) (w w' : W) :
  Bot.get_new_entries f w = (inr [], w') ->
  Bot.listen (S fuel) f w =
  mkRun (result (Bot.listen fuel f (Bot.sleep 2 w')))
        (final (Bot.listen fuel f (Bot.sleep 2 w')))
        ((Bot.GetNewEntries f, true) :: (Bot.Sleep 2, true) ::
         trace (Bot.listen fuel f (Bot.sleep 2 w'))).
Proof.
  intros H. unfold Bot.listen. simpl. unfold bind, perform. rewrite H.
  simpl. rewrite (listen_loop_restart fuel f (Some []) None).
  destruct (Bot.listen_loop fuel f false None (Bot.sleep 2 w'))
    as [[o|x|] w2 t2]; simpl; try reflexivity.
  destruct o as [entries|]; simpl; [|reflexivity].
  destruct (item entries 0); reflexivity.
Qed.

(** A wait that returns an event got it as the first entry of a poll that
    came after polls without entries only. *)
Lemma listen_returns_inv (fuel : nat) (f : Bot.EventFilter) (w : W)
  (ev : Bot.RequestServed) :
  result (Bot.listen fuel f w) = Ok ev ->
  exists n w_n rest w',
    (n < fuel)%nat /\
    after_empty_polls n f w = Some w_n /\
    Bot.get_new_entries f w_n = (inr (ev :: rest), w').
Proof.
  revert w. induction fuel as [|fuel IH]; intros w H; [discriminate|].
  destruct (Bot.get_new_entries f w) as [[x|[|e es]] w'] eqn:E.
  - rewrite (listen_poll_raises _ _ _ _ _ E) in H. discriminate.
  - rewrite (listen_poll_empty _ _ _ _ E) in H. simpl in H.
    destruct (IH _ H) as (n & w_n & rest & w'' & Hn & Ha & Hp).
    exists (S n), w_n, rest, w''. split; [lia|]. split; [|exact Hp].
    simpl. rewrite E. exact Ha.
  - rewrite (listen_poll_entries _ _ _ _ _ _ E) in H. injection H as ->.
    exists 0%nat, w, es, w'. split; [lia|]. split; [reflexivity|exact E].
Qed.

Lemma listen_returns_intro (n fuel : nat) (f : Bot.EventFilter) (w w_n w' : W)
  (ev : Bot.RequestServed) (rest : list Bot.RequestServed) :
  (n < fuel)%nat ->
  after_empty_polls n f w = Some w_n ->
  Bot.get_new_entries f w_n = (inr (ev :: rest), w') ->
  result (Bot.listen fuel f w) = Ok ev.
Proof.
  revert fuel w. induction n as [|n IH]; intros fuel w Hn Ha Hp;
    (destruct fuel as [|fuel]; [lia|]).
  - injection Ha as ->. rewrite (listen_poll_entries _ _ _ _ _ _ Hp).
    reflexivity.
  - simpl in Ha.
    destruct (Bot.get_new_entries f w) as [[x|[|e es]] w1] eqn:E;
      try discriminate.
    rewrite (listen_poll_empty _ _ _ _ E). simpl.
    apply IH; [lia | exact Ha | exact Hp].
Qed.

Lemma listen_keeps_waiting (fuel : nat) (f : Bot.EventFilter) (w : W) :
  (forall n, after_empty_polls n f w <> None) ->
  result (Bot.listen fuel f w) = OutOfFuel.
Proof.
  revert w. induction fuel as [|fuel IH]; intros w H; [reflexivity|].
  destruct (Bot.get_new_entries f w) as [[x|[|e es]] w'] eqn:E.
  - exfalso. apply (H 1%nat). simpl. rewrite E. reflexivity.
  - rewrite (listen_poll_empty _ _ _ _ E). simpl. apply IH.
    intros n Hn. apply (H (S n)). simpl. rewrite E. exact Hn.
  - exfalso. apply (H 1%nat). simpl. rewrite E. reflexivity.
Qed.

End Waiting.

(** C9: [listen] returns exactly when one of its polls of the event filter
    returns entries, the polls before it having returned none, and it then
    returns the first entry of that batch; there is no bound on the wait:
    as long as every poll returns no entry the wait goes on, whatever the
    number of polls. *)
Theorem listen_returns_first_entry_or_waits {W} {P : Bot.Platform}
  {G : Bot.Gateway W} (f : Bot.EventFilter) (w : W) :
  (forall fuel ev,
      result (Bot.listen fuel f w) = Ok ev <->
      exists n w_n rest w',
        (n < fuel)%nat /\
        after_empty_polls n f w = Some w_n /\
        Bot.get_new_entries f w_n = (inr (ev :: rest), w')) /\
  ((forall n, after_empty_polls n f w <> None) ->
   forall fuel, result (Bot.listen fuel f w) = OutOfFuel).
Proof.
  split.
  - intros fuel ev. split.
    + apply listen_returns_inv.
    + intros (n & w_n & rest & w' & Hn & Ha & Hp).
      exact (listen_returns_intro n fuel f w w_n w' ev rest Hn Ha Hp).
  - intros H fuel. apply listen_keeps_waiting. exact H.
Qed.

Lemma listen_returns_first_entry_or_waits_witness :
  result (Bot.listen 5 Scenario.filter42
            (Scenario.watching [[]; [Testnet.Verify 42 [x2a]]]))
  = Ok {| Bot.requestId := 42; Bot.reply := [x2a] |} /\
  (forall fuel,
      result (Bot.listen fuel Scenario.filter42 (Scenario.watching []))
      = OutOfFuel).
Proof.
  split.
  - apply (proj1 (listen_returns_first_entry_or_waits Scenario.filter42 _)).
    eexists 1%nat, _, [], _. split; [lia|]. split; reflexivity.
  - apply (proj2 (listen_returns_first_entry_or_waits Scenario.filter42 _)).
    intros n.
    assert (H : after_empty_polls n Scenario.filter42 (Scenario.watching [])
                = Some (Scenario.watching [])).
    { induction n as [|n IH]; [reflexivity|]. exact IH. }
    rewrite H. discriminate.
Defined.

(** ** Isolation of the waiters *)

(** The filters of the home chain of [Testnet] keep their contract. *)
Lemma testnet_exact_match : exact_match Testnet.gateway.
Proof.
  intros f c entries c' H. simpl in H. unfold Testnet.guarded in H.
  destruct (Testnet.online c); [|discriminate].
  destruct (nth_error (Testnet.cursors (Testnet.tick c)) (Bot.filter_id f));
    [|discriminate].
  injection H as <- _. apply Forall_forall. intros ev Hin.
  apply filter_In in Hin. destruct Hin as [_ Heq].
  apply Z.eqb_eq. exact Heq.
Qed.

(** The requests 41 and 42 are awaited at once and served in the reverse
    order: each waiter returns the reply of its own request. *)
Lemma served_in_reverse_order :
  result (Scenario.two_waiters 5
            (Scenario.testnet 43 true
               [[]; []; [Testnet.Verify 42 [x2a]]; [Testnet.Verify 41 [x29]]]))
  = Ok ({| Bot.requestId := 41; Bot.reply := [x29] |},
        {| Bot.requestId := 42; Bot.reply := [x2a] |}).
Proof. vm_compute. reflexivity. Qed.

(** ** Submitting a request *)

(** [request] up to the registration of the filter, when every call
    answers; what follows is the wait and the last message. *)
Lemma request_prefix {W} {P : Bot.Platform} {G : Bot.Gateway W}
  (fuel : nat) (args : list string) (account arg1 arg2 : string)
  (key blockId : Z) (w w1 w2 w3 w4 : W) (txn_hash : TxHash)
  (receipt : Receipt) (total : Z) (id : nat) :
  item args 0 = inr account ->
  item args 1 = inr arg1 -> Bot.py_int arg1 = inr key ->
  item args 2 = inr arg2 -> Bot.py_int arg2 = inr blockId ->
  Bot.request_transact account key blockId 0 0 w = (inr txn_hash, w1) ->
  Bot.wait_for_transaction_receipt txn_hash w1 = (inr receipt, w2) ->
  Bot.getTotal w2 = (inr total, w3) ->
  Bot.createFilter (total - 1) w3 = (inr id, w4) ->
  let wait :=
    (event <- Bot.listen fuel
                {| Bot.filter_id := id; Bot.argument_filters := total - 1 |} ;;
     Bot.reply_text
       (Bot.RequestServedMsg (Bot.requestId event) (Bot.reply event))) w4 in
  Bot.request fuel args w =
  mkRun (result wait) (final wait)
        ([ (Bot.RequestTransact account key blockId 0 0, true);
           (Bot.WaitForReceipt txn_hash, true);
           (Bot.GetTotal, true);
           (Bot.ReplyText
              (Bot.RequestCreated (total - 1) account key blockId), true);
           (Bot.CreateFilter (total - 1), true) ] ++ trace wait).
Proof.
  intros H0 H1 Hk H2 Hb Ht Hr Hg Hf wait.
  unfold Bot.request.
  unfold bind at 1. rewrite H0. simpl.
  unfold bind at 1. rewrite H1. simpl.
  unfold bind at 1. rewrite Hk. simpl.
  unfold bind at 1. rewrite H2. simpl.
  unfold bind at 1. rewrite Hb. simpl.
  unfold bind at 1. rewrite (perform_ok _ _ _ _ _ Ht).
  unfold bind at 1. rewrite (perform_ok _ _ _ _ _ Hr).
  unfold bind at 1. rewrite (perform_ok _ _ _ _ _ Hg).
  unfold bind at 1. unfold Bot.reply_text at 1, perform at 1.
  cbn [Bot.deliver Bot.reliable].
  unfold bind at 1. rewrite (perform_ok _ _ _ _ _ Hf).
  fold wait. destruct wait as [r wf tf]. reflexivity.
Qed.

(** ** The Bridge counter on the home chain of [Testnet] *)

Lemma tick_online (c : Testnet.Chain) :
  Testnet.online (Testnet.tick c) = Testnet.online c.
Proof. unfold Testnet.tick. destruct (Testnet.schedule c); reflexivity. Qed.

Lemma tick_mine (c : Testnet.Chain) :
  Testnet.mine (Testnet.tick c) = Testnet.mine c.
Proof. unfold Testnet.tick. destruct (Testnet.schedule c); reflexivity. Qed.

Lemma tick_mempool (c : Testnet.Chain) :
  Testnet.mempool (Testnet.tick c) = Testnet.mempool c.
Proof. unfold Testnet.tick. destruct (Testnet.schedule c); reflexivity. Qed.

Lemma tick_schedule (c : Testnet.Chain) :
  Testnet.schedule (Testnet.tick c) = tl (Testnet.schedule c).
Proof.
  unfold Testnet.tick.
  destruct (Testnet.schedule c) eqn:E; [rewrite E|]; reflexivity.
Qed.

Lemma tick_bridge (c : Testnet.Chain) :
  Testnet.bridge (Testnet.tick c) =
  fold_left Testnet.apply_tx (nth 0 (Testnet.schedule c) []) (Testnet.bridge c).
Proof. unfold Testnet.tick. destruct (Testnet.schedule c); reflexivity. Qed.

Lemma mark_served_length (n : nat) (reply : bytes) (l : list Testnet.Entry) :
  length (Testnet.mark_served n reply l) = length l.
Proof.
  revert n. induction l as [|e l IH]; intros n; destruct n; simpl;
    try reflexivity.
  rewrite IH. reflexivity.
Qed.

(** A [verify] leaves the request counter as it is. *)
Lemma verify_keeps_total (id : Z) (reply : bytes) (b : Testnet.Bridge) :
  Testnet.bridge_getTotal (Testnet.bridge_verify id reply b)
  = Testnet.bridge_getTotal b.
Proof.
  unfold Testnet.bridge_verify.
  destruct (id <? 0); [reflexivity|].
  destruct (nth_error (Testnet.requests b) (Z.to_nat id)) as [e|];
    [|reflexivity].
  destruct (Testnet.e_served e); [reflexivity|].
  unfold Testnet.bridge_getTotal. simpl. rewrite mark_served_length.
  reflexivity.
Qed.

(** A [request] gets the counter as its identifier and adds one to it. *)
Lemma request_adds_one (a : Address) (k blk : Z) (b : Testnet.Bridge) :
  fst (Testnet.bridge_request a k blk b) = Testnet.bridge_getTotal b /\
  Testnet.bridge_getTotal (snd (Testnet.bridge_request a k blk b))
  = Testnet.bridge_getTotal b + 1.
Proof.
  split; [reflexivity|].
  unfold Testnet.bridge_request, Testnet.bridge_getTotal.
  cbn [snd Testnet.requests]. rewrite length_app. cbn [length]. lia.
Qed.

Lemma quiet_batch_keeps_total (batch : list Testnet.Tx) (b : Testnet.Bridge) :
  Forall (fun t => Testnet.is_submit t = false) batch ->
  Testnet.bridge_getTotal (fold_left Testnet.apply_tx batch b)
  = Testnet.bridge_getTotal b.
Proof.
  intros H. revert b. induction H as [|t batch Ht _ IH]; intros b;
    [reflexivity|].
  simpl. rewrite IH. destruct t as [a k blk | id reply]; [discriminate|].
  apply verify_keeps_total.
Qed.

Lemma testnet_poll_mine (f : Bot.EventFilter) (c : Testnet.Chain) :
  Testnet.mine (snd (Bot.get_new_entries f c)) = Testnet.mine c.
Proof.
  simpl. unfold Testnet.guarded.
  destruct (Testnet.online c); [|reflexivity].
  destruct (nth_error (Testnet.cursors (Testnet.tick c)) (Bot.filter_id f));
    simpl; apply tick_mine.
Qed.

(** The wait changes nothing to the identifiers given to the bot. *)
Lemma testnet_listen_mine (fuel : nat) (f : Bot.EventFilter)
  (c : Testnet.Chain) :
  Testnet.mine (final (Bot.listen fuel f c)) = Testnet.mine c.
Proof.
  revert c. induction fuel as [|fuel IH]; intros c; [reflexivity|].
  pose proof (testnet_poll_mine f c) as Hm.
  destruct (Bot.get_new_entries f c) as [[x|[|e es]] c'] eqn:E; simpl in Hm.
  - rewrite (listen_poll_raises _ _ _ _ _ E). exact Hm.
  - rewrite (listen_poll_empty _ _ _ _ E). simpl final.
    rewrite IH. change (Bot.sleep 2 c') with (Testnet.tick c').
    rewrite tick_mine. exact Hm.
  - rewrite (listen_poll_entries _ _ _ _ _ _ E). exact Hm.
Qed.

(** The four calls of [request] on the home chain of [Testnet]. *)
Lemma testnet_transact (c : Testnet.Chain) (a : Address) (k blk r1 r2 : Z) :
  Testnet.online c = true ->
  exists c1,
    Bot.request_transact a k blk r1 r2 c = (inr [x01], c1) /\
    Testnet.online c1 = true /\
    Testnet.mempool c1 = Testnet.mempool c ++ [(a, k, blk)] /\
    Testnet.mine c1 = Testnet.mine c /\
    Testnet.schedule c1 = tl (Testnet.schedule c).
Proof.
  intros Hon. eexists. split.
  - cbn [Bot.request_transact Testnet.gateway]. unfold Testnet.guarded.
    rewrite Hon. reflexivity.
  - cbn [Testnet.online Testnet.mempool Testnet.mine Testnet.schedule].
    rewrite tick_online, tick_mempool, tick_mine, tick_schedule.
    repeat split; assumption.
Qed.

Lemma testnet_receipt (c : Testnet.Chain) (h : TxHash) (a : Address)
  (k blk : Z) :
  Testnet.online c = true ->
  Testnet.mempool c = [(a, k, blk)] ->
  exists c2 id,
    Bot.wait_for_transaction_receipt h c = (inr {| status := 1 |}, c2) /\
    Testnet.online c2 = true /\
    Testnet.mine c2 = Testnet.mine c ++ [id] /\
    Testnet.bridge_getTotal (Testnet.bridge c2) = id + 1 /\
    Testnet.schedule c2 = tl (Testnet.schedule c).
Proof.
  intros Hon Hpool.
  exists {| Testnet.bridge :=
              snd (Testnet.bridge_request a k blk
                     (Testnet.bridge (Testnet.tick c)));
            Testnet.online := Testnet.online (Testnet.tick c);
            Testnet.mempool := [];
            Testnet.mine :=
              Testnet.mine (Testnet.tick c) ++
              [Testnet.bridge_getTotal (Testnet.bridge (Testnet.tick c))];
            Testnet.cursors := Testnet.cursors (Testnet.tick c);
            Testnet.schedule := Testnet.schedule (Testnet.tick c) |}.
  exists (Testnet.bridge_getTotal (Testnet.bridge (Testnet.tick c))).
  split.
  - cbn [Bot.wait_for_transaction_receipt Testnet.gateway].
    unfold Testnet.guarded. rewrite Hon, tick_mempool, Hpool. reflexivity.
  - cbn [Testnet.online Testnet.mine Testnet.bridge Testnet.schedule].
    rewrite tick_online, tick_mine, tick_schedule.
    repeat split; try assumption.
    apply request_adds_one.
Qed.

Lemma testnet_getTotal (c : Testnet.Chain) :
  Testnet.online c = true ->
  Bot.getTotal c =
  (inr (Testnet.bridge_getTotal (Testnet.bridge (Testnet.tick c))),
   Testnet.tick c).
Proof.
  intros Hon. cbn [Bot.getTotal Testnet.gateway]. unfold Testnet.guarded.
  rewrite Hon. reflexivity.
Qed.

Lemma testnet_createFilter (c : Testnet.Chain) (id : Z) :
  Testnet.online c = true ->
  exists n c4,
    Bot.createFilter id c = (inr n, c4) /\
    Testnet.mine c4 = Testnet.mine c.
Proof.
  intros Hon. eexists. eexists. split.
  - cbn [Bot.createFilter Testnet.gateway]. unfold Testnet.guarded.
    rewrite Hon. reflexivity.
  - cbn [Testnet.mine]. apply tick_mine.
Qed.

(** On the home chain of [Testnet], when no other submission is mined
    between the receipt of the bot's request and its read of the counter,
    the filter is registered for the identifier the Bridge gave to the
    bot's request. *)
Lemma testnet_request_identifier (c : Testnet.Chain) (fuel : nat)
  (args : list string) (account arg1 arg2 : string) (key blockId : Z) :
  item args 0 = inr account ->
  item args 1 = inr arg1 -> Bot.py_int arg1 = inr key ->
  item args 2 = inr arg2 -> Bot.py_int arg2 = inr blockId ->
  Testnet.online c = true ->
  Testnet.mempool c = [] ->
  Forall (fun t => Testnet.is_submit t = false)
         (nth 2 (Testnet.schedule c) []) ->
  exists id,
    Testnet.mine (final (Bot.request fuel args c)) = Testnet.mine c ++ [id] /\
    nth_error (trace (Bot.request fuel args c)) 4
    = Some (Bot.CreateFilter id, true).
Proof.
  intros H0 H1 Hk H2 Hb Hon Hpool Hquiet.
  destruct (testnet_transact c account key blockId 0 0 Hon)
    as (c1 & E1 & Hon1 & Hpool1 & Hmine1 & Hs1).
  rewrite Hpool in Hpool1. cbn [app] in Hpool1.
  destruct (testnet_receipt c1 [x01] account key blockId Hon1 Hpool1)
    as (c2 & id & E2 & Hon2 & Hmine2 & Htotal2 & Hs2).
  pose proof (testnet_getTotal c2 Hon2) as E3.
  assert (Htotal : Testnet.bridge_getTotal (Testnet.bridge (Testnet.tick c2))
                   = id + 1).
  { rewrite tick_bridge, quiet_batch_keeps_total; [exact Htotal2|].
    rewrite Hs2, Hs1.
    replace (nth 0 (tl (tl (Testnet.schedule c))) [])
      with (nth 2 (Testnet.schedule c) []); [exact Hquiet|].
    destruct (Testnet.schedule c) as [|b0 [|b1 [|b2 s]]]; reflexivity. }
  rewrite Htotal in E3.
  assert (Hon3 : Testnet.online (Testnet.tick c2) = true)
    by (rewrite tick_online; exact Hon2).
  destruct (testnet_createFilter (Testnet.tick c2) (id + 1 - 1) Hon3)
    as (n & c4 & E4 & Hmine4).
  exists id.
  rewrite (request_prefix fuel args account arg1 arg2 key blockId
             c c1 c2 (Testnet.tick c2) c4 [x01] {| status := 1 |} (id + 1) n
             H0 H1 Hk H2 Hb E1 E2 E3 E4).
  cbn [final trace]. split.
  - unfold bind, Bot.reply_text, perform.
    pose proof (testnet_listen_mine fuel
                  {| Bot.filter_id := n;
                     Bot.argument_filters := id + 1 - 1 |} c4) as Hl.
    destruct (Bot.listen fuel _ c4) as [[ev|x|] cf tf];
      cbn [final Bot.deliver Bot.reliable] in Hl |- *;
      rewrite Hl, Hmine4, tick_mine, Hmine2, Hmine1; reflexivity.
  - cbn [app nth_error]. do 3 f_equal. lia.
Qed.

(** C8: [request] submits the request transaction, waits for its receipt,
    reads the request counter right after it and takes the counter minus
    one as requestId, registers a filter constrained to that requestId,
    waits on it and reports the reply of the event it gets, in this order;
    and, on the home chain of [Testnet], when no other submission is mined
    between the receipt and the read of the counter, that requestId is the
    identifier the Bridge gave to the submitted request. *)
Theorem request_steps_and_identifier :
  (forall (W : Type) (P : Bot.Platform) (G : Bot.Gateway W) (fuel : nat)
          (args : list string) (account arg1 arg2 : string) (key blockId : Z)
          (w w1 w2 w3 w4 : W) (txn_hash : TxHash) (receipt : Receipt)
          (total : Z) (id : nat) (event : Bot.RequestServed),
      item args 0 = inr account ->
      item args 1 = inr arg1 -> Bot.py_int arg1 = inr key ->
      item args 2 = inr arg2 -> Bot.py_int arg2 = inr blockId ->
      Bot.request_transact account key blockId 0 0 w = (inr txn_hash, w1) ->
      Bot.wait_for_transaction_receipt txn_hash w1 = (inr receipt, w2) ->
      Bot.getTotal w2 = (inr total, w3) ->
      Bot.createFilter (total - 1) w3 = (inr id, w4) ->
      let eventFilter :=
        {| Bot.filter_id := id; Bot.argument_filters := total - 1 |} in
      result (Bot.listen fuel eventFilter w4) = Ok event ->
      result (Bot.request fuel args w) = Ok tt /\
      trace (Bot.request fuel args w) =
      [ (Bot.RequestTransact account key blockId 0 0, true);
        (Bot.WaitForReceipt txn_hash, true);
        (Bot.GetTotal, true);
        (Bot.ReplyText
           (Bot.RequestCreated (total - 1) account key blockId), true);
        (Bot.CreateFilter (total - 1), true) ] ++
      trace (Bot.listen fuel eventFilter w4) ++
      [ (Bot.ReplyText
           (Bot.RequestServedMsg (Bot.requestId event) (Bot.reply event)),
         true) ])
  /\
  (forall (c : Testnet.Chain) (fuel : nat) (args : list string)
          (account arg1 arg2 : string) (key blockId : Z),
      item args 0 = inr account ->
      item args 1 = inr arg1 -> Bot.py_int arg1 = inr key ->
      item args 2 = inr arg2 -> Bot.py_int arg2 = inr blockId ->
      Testnet.online c = true ->
      Testnet.mempool c = [] ->
      Forall (fun t => Testnet.is_submit t = false)
             (nth 2 (Testnet.schedule c) []) ->
      exists id,
        Testnet.mine (final (Bot.request fuel args c))
        = Testnet.mine c ++ [id] /\
        nth_error (trace (Bot.request fuel args c)) 4
        = Some (Bot.CreateFilter id, true)).
Proof.
  split.
  - intros W P G fuel args account arg1 arg2 key blockId w w1 w2 w3 w4
           txn_hash receipt total id event H0 H1 Hk H2 Hb Ht Hr Hg Hf
           eventFilter Hl.
    rewrite (request_prefix fuel args account arg1 arg2 key blockId
               w w1 w2 w3 w4 txn_hash receipt total id
               H0 H1 Hk H2 Hb Ht Hr Hg Hf).
    fold eventFilter. cbn [result trace].
    rewrite (bind_ok _ _ _ _ Hl). unfold Bot.reply_text, perform.
    cbn [result trace]. split; reflexivity.
  - apply testnet_request_identifier.
Qed.

Lemma request_steps_and_identifier_witness :
  result (Bot.request 5 Scenario.request_args
            (Scenario.testnet 42 true
               [[]; []; []; []; []; [Testnet.Verify 42 [x2a]]]))
  = Ok tt /\
  exists id,
    Testnet.mine
      (final (Bot.request 5 Scenario.request_args
                (Scenario.testnet 42 true
                   [[]; []; []; []; []; [Testnet.Verify 42 [x2a]]])))
    = [] ++ [id] /\
    nth_error
      (trace (Bot.request 5 Scenario.request_args
                (Scenario.testnet 42 true
                   [[]; []; []; []; []; [Testnet.Verify 42 [x2a]]]))) 4
    = Some (Bot.CreateFilter id, true).
Proof.
  split.
  - refine (proj1 (proj1 request_steps_and_identifier
                     Testnet.Chain Testnet.platform Testnet.gateway
                     5%nat Scenario.request_args
                     "0xabc"%string "3"%string "18000000"%string 3 18000000
                     (Scenario.testnet 42 true
                        [[]; []; []; []; []; [Testnet.Verify 42 [x2a]]])
                     _ _ _ _ [x01] {| status := 1 |} 43 0%nat
                     {| Bot.requestId := 42; Bot.reply := [x2a] |}
                     eq_refl eq_refl eq_refl eq_refl eq_refl
                     _ _ _ _ _)).
    all: reflexivity.
  - refine (proj2 request_steps_and_identifier
              (Scenario.testnet 42 true
                 [[]; []; []; []; []; [Testnet.Verify 42 [x2a]]])
              5%nat Scenario.request_args
              "0xabc"%string "3"%string "18000000"%string 3 18000000
              eq_refl eq_refl eq_refl eq_refl eq_refl eq_refl eq_refl _).
    repeat constructor.
Defined.

(** Without the precondition the derived requestId is another one: a
    submission of somebody else mined between the receipt and the read of
    the counter makes the bot, whose request got the identifier 42, wait
    for the request 43. *)
Lemma interleaved_submission_other_identifier :
  let run :=
    Bot.request 5 Scenario.request_args
      (Scenario.testnet 42 true
         [[]; []; [Testnet.Submit "0xdef"%string 1 2]; []; [];
          [Testnet.Verify 42 [x2a]]]) in
  Testnet.mine (final run) = [42] /\
  nth_error (trace run) 4 = Some (Bot.CreateFilter 43, true) /\
  result run = OutOfFuel.
Proof. vm_compute. repeat split. Qed.

(** * Further properties of the relay *)

Import Shapes.

Lemma bytes_to_Z_zeros (n : nat) (b : bytes) :
  bytes_to_Z (repeat x00 n ++ b) = bytes_to_Z b.
Proof.
  unfold bytes_to_Z. rewrite fold_left_app. f_equal.
  induction n as [|n IH]; [reflexivity|]. simpl. exact IH.
Qed.

(** X1: the padding keeps the slot: whatever the width of the key of the
    first storage-proof entry, the storageKey of the state proof denotes the
    same big-endian number and ends with the bytes of that key. *)
Theorem storageKey_denotes_entry_key (block : Block) (account : Address)
  (proof : ProofResponse) (built : StateProof) :
  stateProof block account proof = inr built ->
  exists entry rest,
    storageProof proof = entry :: rest /\
    bytes_to_Z (sp_storageKey built) = bytes_to_Z (entry_key entry) /\
    skipn (length (sp_storageKey built) - length (entry_key entry))
          (sp_storageKey built) = entry_key entry.
Proof.
  intros H. destruct (storageProof proof) as [|entry rest] eqn:E.
  - rewrite (stateProof_no_entry _ _ _ E) in H. discriminate.
  - rewrite (stateProof_first_entry _ _ _ _ _ E) in H. injection H as <-.
    exists entry, rest. split; [reflexivity|]. simpl. unfold pad_bytes.
    split; [apply bytes_to_Z_zeros|].
    rewrite length_app, repeat_length.
    replace (32 - length (entry_key entry) + length (entry_key entry)
             - length (entry_key entry))%nat
      with (length (repeat x00 (32 - length (entry_key entry))) + 0)%nat
      by (rewrite repeat_length; lia).
    rewrite skipn_app, skipn_all2 by (rewrite repeat_length; lia).
    rewrite repeat_length.
    replace (32 - length (entry_key entry) + 0
             - (32 - length (entry_key entry)))%nat with 0%nat by lia.
    reflexivity.
Qed.

Lemma storageKey_denotes_entry_key_witness :
  exists entry rest,
    storageProof Scenario.wide_key = entry :: rest /\
    bytes_to_Z (repeat x01 33) = bytes_to_Z (entry_key entry) /\
    skipn (33 - length (entry_key entry)) (repeat x01 33) = entry_key entry.
Proof.
  exact (storageKey_denotes_entry_key Scenario.header "0xabc"%string
           Scenario.wide_key _ eq_refl).
Defined.

(** X2: a proof response without storage-proof entry: the handling raises
    IndexError right after the two reads of the mainnet; no [verify] is
    submitted and nothing is printed. *)
Theorem no_entry_no_submission {W} {G : Gateway W} (event : RequestLogged)
  (w w1 w2 : W) (block : Block) (proof : ProofResponse) :
  get_block (blockId event) w = (inr block, w1) ->
  get_proof (account event) [key event] (blockId event) w1 = (inr proof, w2) ->
  storageProof proof = [] ->
  handle_event event w =
  mkRun (Raise IndexError) w2
        [ (GetBlock (blockId event), true);
          (GetProof (account event) [key event] (blockId event), true) ].
Proof.
  intros Hb Hp He. unfold handle_event, bind, perform, lift.
  rewrite Hb, Hp, (stateProof_no_entry _ _ _ He). reflexivity.
Qed.

(** X3: the receipt is never read: once [wait_for_transaction_receipt]
    returns a receipt, whatever its status, the event is handled to its end
    and the line printed carries the storageValue that was submitted. *)
Theorem served_whatever_the_receipt {W} {G : Gateway W} (event : RequestLogged)
  (w w1 w2 w3 w4 : W) (block : Block) (proof : ProofResponse)
  (built : StateProof) (txn_hash : TxHash) (receipt : Receipt) :
  get_block (blockId event) w = (inr block, w1) ->
  get_proof (account event) [key event] (blockId event) w1 = (inr proof, w2) ->
  stateProof block (account event) proof = inr built ->
  verify_transact (requestId event) built w2 = (inr txn_hash, w3) ->
  wait_for_transaction_receipt txn_hash w3 = (inr receipt, w4) ->
  handle_event event w =
  mkRun (Ok tt) w4
        (map (fun c => (c, true))
             (calls_of event built txn_hash (sp_storageValue built))).
Proof.
  intros Hb Hp Hs Hv Hr. unfold handle_event, bind, perform, lift, print.
  rewrite Hb, Hp, Hs. simpl. rewrite Hv, Hr. simpl.
  destruct (storageProof proof) as [|entry rest] eqn:E.
  - rewrite (stateProof_no_entry _ _ _ E) in Hs. discriminate.
  - rewrite (stateProof_first_entry _ _ _ _ _ E) in Hs. injection Hs as <-.
    reflexivity.
Qed.

Lemma no_entry_no_submission_witness :
  handle_event (G := Sparse.gateway) Scenario.event42
    (Scenario.devnet false [])
  = mkRun (Raise IndexError) (Scenario.devnet false [])
      [ (GetBlock 18000000, true);
        (GetProof "0xabc"%string [3] 18000000, true) ].
Proof.
  refine (no_entry_no_submission (G := Sparse.gateway) Scenario.event42
            _ _ _ _ _ _ _ _);
    reflexivity.
Defined.

Lemma served_whatever_the_receipt_witness :
  printed (trace (handle_event (G := Reverting.gateway) Scenario.event42
                    (Scenario.devnet false [])))
  = [ServedLine 42 [x2c]].
Proof.
  rewrite (served_whatever_the_receipt (G := Reverting.gateway)
             Scenario.event42 (Scenario.devnet false []) _ _ _ _ _ _ _ _
             {| status := 0 |} eq_refl eq_refl eq_refl eq_refl eq_refl).
  reflexivity.
Defined.

(** ** No call after a failed call *)

Lemma all_answered_app {T} (t t' : list (T * bool)) :
  all_answered t -> all_answered t' -> all_answered (t ++ t').
Proof. intros H H'. apply Forall_app. split; assumption. Qed.

Lemma stopped_perform {W T A} (act : T) (f : W -> (Exn + A) * W) (w : W) :
  stopped_at_failure (perform act f w).
Proof.
  unfold stopped_at_failure, perform.
  destruct (f w) as [[x|a] w']; simpl.
  - right. exists [], act. split; [reflexivity|constructor].
  - repeat constructor.
Qed.

Lemma stopped_lift {W T A} (v : Exn + A) (w : W) :
  stopped_at_failure (lift (W := W) (T := T) v w).
Proof. destruct v; simpl; [left|]; constructor. Qed.

Lemma stopped_bind {W T A B} (m : M W T A) (k : A -> M W T B) (w : W) :
  stopped_at_failure (m w) ->
  (forall a w', stopped_at_failure (k a w')) ->
  stopped_at_failure (bind m k w).
Proof.
  unfold stopped_at_failure, bind. intros Hm Hk.
  destruct (m w) as [[a|x|] w1 t1]; simpl in Hm |- *; try exact Hm.
  specialize (Hk a w1). destruct (k a w1) as [[b|y|] w2 t2];
    simpl in Hk |- *.
  - apply all_answered_app; assumption.
  - destruct Hk as [Hall | (t & c & -> & Hall)].
    + left. apply all_answered_app; assumption.
    + right. exists (t1 ++ t), c. split; [apply app_assoc|].
      apply all_answered_app; assumption.
  - apply all_answered_app; assumption.
Qed.

Lemma stopped_handle_event {W} {G : Gateway W} (e : RequestLogged) (w : W) :
  stopped_at_failure (handle_event e w).
Proof.
  unfold handle_event.
  repeat (apply stopped_bind; [|intros ? ?]);
    try apply stopped_perform; apply stopped_lift.
Qed.

Lemma stopped_for_each {W} {G : Gateway W} (es : list RequestLogged) (w : W) :
  stopped_at_failure (for_each handle_event es w).
Proof.
  revert w. induction es as [|e es IH]; intros w; simpl.
  - constructor.
  - apply stopped_bind; [apply stopped_handle_event | intros _ w'; apply IH].
Qed.

Lemma stopped_log_loop {W} {G : Gateway W} (fuel : nat) (f : FilterId)
  (interval : Z) (w : W) :
  stopped_at_failure (log_loop fuel f interval w).
Proof.
  revert w. induction fuel as [|fuel IH]; intros w; simpl.
  - constructor.
  - apply stopped_bind; [apply stopped_perform | intros es w1].
    apply stopped_bind; [apply stopped_for_each | intros _ w2].
    apply stopped_bind; [apply stopped_perform | intros _ w3]. apply IH.
Qed.

Lemma failed_call_is_last {W T A} (r : Run W T A) (before after : list (T * bool))
  (c : T) :
  stopped_at_failure r ->
  trace r = before ++ (c, false) :: after ->
  after = [] /\ exists x, result r = Raise x.
Proof.
  unfold stopped_at_failure. intros Hs Ht.
  assert (Hin : In (c, false) (trace r))
    by (rewrite Ht; apply in_elt).
  assert (Hno : all_answered (trace r) -> False).
  { intros Hall. unfold all_answered in Hall. rewrite Forall_forall in Hall.
    specialize (Hall _ Hin). discriminate. }
  destruct (result r) as [a|x|]; try (exfalso; exact (Hno Hs)).
  destruct Hs as [Hall | (t & c' & Ht' & Hall)]; [exfalso; exact (Hno Hall)|].
  split; [|exists x; reflexivity].
  destruct (exists_last (l := (c, false) :: after)) as (l' & z & Hl);
    [discriminate|].
  rewrite Ht, Hl, app_assoc in Ht'. apply app_inj_tail in Ht'.
  destruct Ht' as [<- _].
  destruct l' as [|y l']; [destruct after; [reflexivity|discriminate]|].
  exfalso. injection Hl as <- _.
  unfold all_answered in Hall. rewrite Forall_forall in Hall.
  specialize (Hall (c, false) (in_elt _ _ _)). discriminate.
Qed.

(** X4: whatever the number of iterations, the polling loop makes no call
    after a call that raised, be it a poll or a step of the handling of an
    event: a failed call is the last call of the run, and the run ended
    with an exception. *)
Theorem relay_makes_no_call_after_a_failed_one {W} {G : Gateway W}
  (fuel : nat) (f : FilterId) (interval : Z) (w : W)
  (before after : list (Call * bool)) (c : Call) :
  trace (log_loop fuel f interval w) = before ++ (c, false) :: after ->
  after = [] /\ exists x, result (log_loop fuel f interval w) = Raise x.
Proof.
  intros H. exact (failed_call_is_last _ _ _ _ (stopped_log_loop _ _ _ _) H).
Qed.

Lemma relay_makes_no_call_after_a_failed_one_witness :
  exists x,
    result (log_loop 3 0%nat 2
              (Scenario.devnet false
                 [[Scenario.event42; Scenario.event43; Scenario.event42]]))
    = Raise x.
Proof.
  refine (proj2 (relay_makes_no_call_after_a_failed_one 3 0%nat 2
                   (Scenario.devnet false
                      [[Scenario.event42; Scenario.event43; Scenario.event42]])
                   (map (fun c => (c, true))
                        (GetNewEntries 0%nat ::
                         calls_of Scenario.event42
                           {| sp_stateRoot := Devnet.be_bytes 32 18000001;
                              sp_account := "0xabc"%string;
                              sp_accountProof := [];
                              sp_storageHash := [x07];
                              sp_storageKey := repeat x00 31 ++ [x03];
                              sp_storageValue := [x2c];
                              sp_storageProof := [] |}
                           (Devnet.be_bytes 32 43) [x2c]))
                   [] (GetBlock 18000500) _)).
  reflexivity.
Defined.

Lemma bind_not_returned {W T A B} (m : M W T A) (k : A -> M W T B) (w : W) :
  (forall a w', not_returned (k a w')) -> not_returned (bind m k w).
Proof.
  unfold not_returned, bind. intros Hk.
  destruct (m w) as [[a|x|] w1 t1]; simpl;
    [|right; exists x; reflexivity|left; reflexivity].
  specialize (Hk a w1). destruct (k a w1) as [r w2 t2]. exact Hk.
Qed.

Lemma log_loop_not_returned {W} {G : Gateway W} (fuel : nat) (f : FilterId)
  (interval : Z) (w : W) :
  not_returned (log_loop fuel f interval w).
Proof.
  revert w. induction fuel as [|fuel IH]; intros w; [left; reflexivity|].
  simpl. apply bind_not_returned. intros es w1.
  apply bind_not_returned. intros _ w2.
  apply bind_not_returned. intros _ w3. apply IH.
Qed.

(** X5: the polling loop and [main] never return: after any number of
    iterations the loop is either still going or has ended with an
    exception, and so has [main]. *)
Theorem relay_never_returns {W} {G : Gateway W} (fuel : nat) (w : W) :
  (forall f interval, not_returned (log_loop fuel f interval w)) /\
  not_returned (main fuel w).
Proof.
  split; [intros f interval; apply log_loop_not_returned|].
  unfold main. apply bind_not_returned. intros _ w0.
  apply bind_not_returned. intros f w1.
  pose proof (log_loop_not_returned fuel f 2 w1) as H.
  unfold not_returned, try_finally, perform in H |- *.
  destruct (log_loop fuel f 2 w1) as [r w2 t2]. simpl in H |- *.
  destruct H as [-> | (x & ->)]; [left|right; exists x]; reflexivity.
Qed.

(** ** What is submitted *)

Lemma handle_event_submits {W} {G : Gateway W} (e : RequestLogged) (w : W) :
  (result (handle_event e w) = Ok tt /\
   exists p, submissions (trace (handle_event e w)) = [(requestId e, p)] /\
             sp_account p = account e) \/
  (exists x, result (handle_event e w) = Raise x /\
     (submissions (trace (handle_event e w)) = [] \/
      exists p, submissions (trace (handle_event e w)) = [(requestId e, p)] /\
                sp_account p = account e)).
Proof.
  unfold handle_event, bind, perform, lift, print.
  destruct (get_block (blockId e) w) as [[x|blk] w1]; simpl;
    [right; exists x; split; [reflexivity|left; reflexivity]|].
  destruct (get_proof (account e) [key e] (blockId e) w1) as [[x|prf] w2];
    simpl; [right; exists x; split; [reflexivity|left; reflexivity]|].
  unfold stateProof, item.
  destruct (storageProof prf) as [|entry rest]; simpl;
    [right; exists IndexError; split; [reflexivity|left; reflexivity]|].
  match goal with |- context [verify_transact ?i ?p ?w] =>
    set (sp := p); destruct (verify_transact i sp w) as [[x|h] w3] end; simpl;
    [right; exists x; split; [reflexivity|left; reflexivity]|].
  destruct (wait_for_transaction_receipt h w3) as [[x|rcpt] w4]; simpl.
  - right. exists x. split; [reflexivity|]. right. exists sp.
    split; reflexivity.
  - left. split; [reflexivity|]. exists sp. split; reflexivity.
Qed.

(** X6: whatever happens during a batch, the [verify] transactions the home
    chain took are, in order and one each, for the first events of the
    batch, with the requestId and the account of the event: no event is
    skipped, none is submitted twice and nothing is submitted that was not
    in the batch. *)
Theorem submissions_follow_the_batch {W} {G : Gateway W}
  (batch : list RequestLogged) (w : W) :
  exists rest,
    map (fun e => (requestId e, account e)) batch =
    map (fun s => (fst s, sp_account (snd s)))
        (submissions (trace (for_each handle_event batch w))) ++ rest.
Proof.
  revert w. induction batch as [|e es IH]; intros w.
  - exists []. reflexivity.
  - simpl for_each.
    destruct (handle_event_submits e w)
      as [(Hr & p & Hs & Hp) | (x & Hr & Hs)].
    + rewrite (bind_ok _ _ _ _ Hr). cbn [trace].
      rewrite submissions_app, Hs.
      destruct (IH (final (handle_event e w))) as (rest & Hrest).
      exists rest. simpl. rewrite Hp, Hrest. reflexivity.
    + rewrite (bind_raise _ _ _ _ Hr). cbn [trace].
      destruct Hs as [-> | (p & -> & Hp)].
      * eexists. reflexivity.
      * exists (map (fun e => (requestId e, account e)) es). simpl.
        rewrite Hp. reflexivity.
Qed.

(** ** [main] *)

(** X7: [main] prints the banner, creates the filter once and polls with
    the interval 2.  When the filter cannot be created nothing else is
    done, not even closing the event loop; when the polling loop ends with
    an exception the event loop is closed once, as the last call, and the
    exception leaves [main]. *)
Theorem main_closes_the_loop_once {W} {G : Gateway W} (fuel : nat) (w : W) :
  (forall x w1,
      createFilter w = (inl x, w1) ->
      main fuel w =
      mkRun (Raise x) w1 [(Print Banner, true); (CreateFilter, false)]) /\
  (forall f w1 x,
      createFilter w = (inr f, w1) ->
      result (log_loop fuel f 2 w1) = Raise x ->
      main fuel w =
      mkRun (Raise x) (final (log_loop fuel f 2 w1))
            ([(Print Banner, true); (CreateFilter, true)] ++
             trace (log_loop fuel f 2 w1) ++ [(LoopClose, true)])).
Proof.
  split.
  - intros x w1 H. unfold main, print, bind, perform. simpl. rewrite H.
    reflexivity.
  - intros f w1 x H Hl.
    unfold main, print, bind, perform, try_finally. simpl. rewrite H.
    destruct (log_loop fuel f 2 w1) as [r w2 t2]. simpl in Hl |- *.
    subst r. reflexivity.
Qed.

Lemma main_closes_the_loop_once_witness :
  trace (main (G := Down.gateway) 3 (Scenario.devnet false [])) =
  [(Print Banner, true); (CreateFilter, false)] /\
  trace (main 3 (Scenario.devnet false [[Scenario.event43]])) =
  [ (Print Banner, true); (CreateFilter, true);
    (GetNewEntries 0%nat, true); (GetBlock 18000500, false);
    (LoopClose, true) ].
Proof.
  split.
  - rewrite (proj1 (main_closes_the_loop_once (G := Down.gateway) 3
                      (Scenario.devnet false []))
               TransportError (Scenario.devnet false []) eq_refl).
    reflexivity.
  - rewrite (proj2 (main_closes_the_loop_once (G := Devnet.gateway) 3
                      (Scenario.devnet false [[Scenario.event43]]))
               0%nat (Scenario.devnet false [[Scenario.event43]])
               BlockNotFound eq_refl eq_refl).
    reflexivity.
Defined.

(** * Further properties of the bot *)

(** ** The wait *)

(** X8: when [listen] returns, after [n] polls without entries, it has
    polled [n + 1] times and slept two seconds after each of the [n] empty
    polls, and not after the poll that brought the event; it leaves the
    world as that last poll left it. *)
Theorem listen_sleeps_after_empty_polls_only {W} {P : Bot.Platform}
  {G : Bot.Gateway W} (n fuel : nat) (f : Bot.EventFilter) (w w_n w' : W)
  (ev : Bot.RequestServed) (rest : list Bot.RequestServed) :
  (n < fuel)%nat ->
  after_empty_polls n f w = Some w_n ->
  Bot.get_new_entries f w_n = (inr (ev :: rest), w') ->
  Bot.listen fuel f w =
  mkRun (Ok ev) w' (empty_polls n f ++ [(Bot.GetNewEntries f, true)]).
Proof.
  revert fuel w. induction n as [|n IH]; intros fuel w Hn Ha Hp;
    (destruct fuel as [|fuel]; [lia|]).
  - injection Ha as ->. exact (listen_poll_entries _ _ _ _ _ _ Hp).
  - simpl in Ha.
    destruct (Bot.get_new_entries f w) as [[x|[|e es]] w1] eqn:E;
      try discriminate.
    rewrite (listen_poll_empty _ _ _ _ E).
    rewrite (IH fuel (Bot.sleep 2 w1) ltac:(lia) Ha Hp). reflexivity.
Qed.

Lemma listen_sleeps_after_empty_polls_only_witness :
  trace (Bot.listen 5 Scenario.filter42
           (Scenario.watching [[]; [Testnet.Verify 42 [x2a]]]))
  = [ (Bot.GetNewEntries Scenario.filter42, true); (Bot.Sleep 2, true);
      (Bot.GetNewEntries Scenario.filter42, true) ].
Proof.
  rewrite (listen_sleeps_after_empty_polls_only 1 5 Scenario.filter42
             (Scenario.watching [[]; [Testnet.Verify 42 [x2a]]]) _ _
             {| Bot.requestId := 42; Bot.reply := [x2a] |} []
             ltac:(repeat constructor) eq_refl eq_refl).
  reflexivity.
Defined.

(** X9: [listen] raises nothing of its own: it ends with an exception
    exactly when one of its polls raises, the polls before it having
    returned no entry, and the exception is the one of that poll. *)
Theorem listen_raises_what_a_poll_raised {W} {P : Bot.Platform}
  {G : Bot.Gateway W} (fuel : nat) (f : Bot.EventFilter) (w : W) (x : Exn) :
  result (Bot.listen fuel f w) = Raise x <->
  exists n w_n w',
    (n < fuel)%nat /\
    after_empty_polls n f w = Some w_n /\
    Bot.get_new_entries f w_n = (inl x, w').
Proof.
  split.
  - revert w. induction fuel as [|fuel IH]; intros w H; [discriminate|].
    destruct (Bot.get_new_entries f w) as [[y|[|e es]] w'] eqn:E.
    + rewrite (listen_poll_raises _ _ _ _ _ E) in H. injection H as ->.
      exists 0%nat, w, w'. split; [lia|]. split; [reflexivity|exact E].
    + rewrite (listen_poll_empty _ _ _ _ E) in H. simpl in H.
      destruct (IH _ H) as (n & w_n & w'' & Hn & Ha & Hp).
      exists (S n), w_n, w''. split; [lia|]. split; [|exact Hp].
      simpl. rewrite E. exact Ha.
    + rewrite (listen_poll_entries _ _ _ _ _ _ E) in H. discriminate.
  - intros (n & w_n & w' & Hn & Ha & Hp). revert fuel w Hn Ha.
    induction n as [|n IH]; intros fuel w Hn Ha;
      (destruct fuel as [|fuel]; [lia|]).
    + injection Ha as ->. rewrite (listen_poll_raises _ _ _ _ _ Hp).
      reflexivity.
    + simpl in Ha.
      destruct (Bot.get_new_entries f w) as [[y|[|e es]] w1] eqn:E;
        try discriminate.
      rewrite (listen_poll_empty _ _ _ _ E). simpl.
      apply IH; [lia | exact Ha].
Qed.

Lemma listen_raises_what_a_poll_raised_witness :
  result (Bot.listen 5 Scenario.filter42 (Scenario.testnet 43 false []))
  = Raise TransportError.
Proof.
  apply (proj2 (listen_raises_what_a_poll_raised 5 Scenario.filter42
                  (Scenario.testnet 43 false []) TransportError)).
  exists 0%nat, (Scenario.testnet 43 false []), (Scenario.testnet 43 false []).
  split; [repeat constructor|]. split; reflexivity.
Defined.

Lemma listen_sends_nothing {W} {P : Bot.Platform} {G : Bot.Gateway W}
  (fuel : nat) (f : Bot.EventFilter) (w : W) :
  replies (trace (Bot.listen fuel f w)) = [].
Proof.
  revert w. induction fuel as [|fuel IH]; intros w; [reflexivity|].
  destruct (Bot.get_new_entries f w) as [[y|[|e es]] w'] eqn:E.
  - rewrite (listen_poll_raises _ _ _ _ _ E). reflexivity.
  - rewrite (listen_poll_empty _ _ _ _ E). simpl. apply IH.
  - rewrite (listen_poll_entries _ _ _ _ _ _ E). reflexivity.
Qed.

(** ** [request] *)

(** X10: unless [context.args] holds an account and two more strings that
    [int] accepts, [request] raises before it does anything: no
    transaction is submitted, no message is sent and the world is as it
    was. *)
Theorem request_with_bad_arguments_does_nothing {W} {P : Bot.Platform}
  {G : Bot.Gateway W} (fuel : nat) (args : list string) (w : W) :
  (forall account arg1 arg2 rest key blockId,
      args = account :: arg1 :: arg2 :: rest ->
      Bot.py_int arg1 = inr key -> Bot.py_int arg2 = inr blockId -> False) ->
  exists x, Bot.request fuel args w = mkRun (Raise x) w [].
Proof.
  intros Hbad. unfold Bot.request, bind, lift, item.
  destruct args as [|account [|arg1 [|arg2 rest]]]; simpl.
  - exists IndexError. reflexivity.
  - exists IndexError. reflexivity.
  - destruct (Bot.py_int arg1) as [x|key]; simpl; eexists; reflexivity.
  - destruct (Bot.py_int arg1) as [x|key] eqn:E1; simpl;
      [eexists; reflexivity|].
    destruct (Bot.py_int arg2) as [x|blockId] eqn:E2; simpl;
      [eexists; reflexivity|].
    exfalso. exact (Hbad _ _ _ _ _ _ eq_refl E1 E2).
Qed.

Lemma request_with_bad_arguments_does_nothing_witness :
  exists x,
    Bot.request 5 ["0xabc"; "three"; "18000000"]%string
      (Scenario.testnet 42 true [])
    = mkRun (Raise x) (Scenario.testnet 42 true []) [].
Proof.
  apply (request_with_bad_arguments_does_nothing
           (P := Testnet.platform) (G := Testnet.gateway)).
  intros account arg1 arg2 rest key blockId Hargs H1 H2.
  injection Hargs as <- <- <- <-. discriminate H1.
Defined.

Lemma replies_app (t t' : list (Bot.Call * bool)) :
  replies (t ++ t') = replies t ++ replies t'.
Proof.
  induction t as [|[c b] t IH]; simpl; [reflexivity|].
  destruct c; try exact IH. simpl. f_equal. exact IH.
Qed.

Section RequestFailures.
Context {W : Type} {P : Bot.Platform} {G : Bot.Gateway W}.
Variables (fuel : nat) (account arg1 arg2 : string) (rest : list string).
Variables (key blockId : Z) (w : W).
Hypothesis Hkey : Bot.py_int arg1 = inr key.
Hypothesis Hblock : Bot.py_int arg2 = inr blockId.

Lemma request_transact_raises (x : Exn) (w1 : W) :
  Bot.request_transact account key blockId 0 0 w = (inl x, w1) ->
  Bot.request fuel (account :: arg1 :: arg2 :: rest) w =
  mkRun (Raise x) w1 [(Bot.RequestTransact account key blockId 0 0, false)].
Proof.
  intros Ht. unfold Bot.request, bind, lift, item, perform. simpl.
  rewrite Hkey. simpl. rewrite Hblock. simpl. rewrite Ht. reflexivity.
Qed.

Lemma request_receipt_raises (x : Exn) (h : TxHash) (w1 w2 : W) :
  Bot.request_transact account key blockId 0 0 w = (inr h, w1) ->
  Bot.wait_for_transaction_receipt h w1 = (inl x, w2) ->
  Bot.request fuel (account :: arg1 :: arg2 :: rest) w =
  mkRun (Raise x) w2
        [ (Bot.RequestTransact account key blockId 0 0, true);
          (Bot.WaitForReceipt h, false) ].
Proof.
  intros Ht Hr. unfold Bot.request, bind, lift, item, perform. simpl.
  rewrite Hkey. simpl. rewrite Hblock. simpl. rewrite Ht, Hr. reflexivity.
Qed.

Lemma request_counter_raises (x : Exn) (h : TxHash) (r : Receipt)
  (w1 w2 w3 : W) :
  Bot.request_transact account key blockId 0 0 w = (inr h, w1) ->
  Bot.wait_for_transaction_receipt h w1 = (inr r, w2) ->
  Bot.getTotal w2 = (inl x, w3) ->
  Bot.request fuel (account :: arg1 :: arg2 :: rest) w =
  mkRun (Raise x) w3
        [ (Bot.RequestTransact account key blockId 0 0, true);
          (Bot.WaitForReceipt h, true);
          (Bot.GetTotal, false) ].
Proof.
  intros Ht Hr Hg. unfold Bot.request, bind, lift, item, perform. simpl.
  rewrite Hkey. simpl. rewrite Hblock. simpl. rewrite Ht, Hr, Hg.
  reflexivity.
Qed.

Lemma request_filter_raises (x : Exn) (h : TxHash) (r : Receipt) (total : Z)
  (w1 w2 w3 w4 : W) :
  Bot.request_transact account key blockId 0 0 w = (inr h, w1) ->
  Bot.wait_for_transaction_receipt h w1 = (inr r, w2) ->
  Bot.getTotal w2 = (inr total, w3) ->
  Bot.createFilter (total - 1) w3 = (inl x, w4) ->
  Bot.request fuel (account :: arg1 :: arg2 :: rest) w =
  mkRun (Raise x) w4
        [ (Bot.RequestTransact account key blockId 0 0, true);
          (Bot.WaitForReceipt h, true);
          (Bot.GetTotal, true);
          (Bot.ReplyText
             (Bot.RequestCreated (total - 1) account key blockId), true);
          (Bot.CreateFilter (total - 1), false) ].
Proof.
  intros Ht Hr Hg Hf.
  unfold Bot.request, bind, lift, item, perform, Bot.reply_text. simpl.
  rewrite Hkey. simpl. rewrite Hblock. simpl. rewrite Ht, Hr, Hg. simpl.
  rewrite Hf. reflexivity.
Qed.

End RequestFailures.

(** X11: with good arguments, when the transaction, its receipt or the read
    of the counter raises, [request] raises that exception and has sent no
    message at all; when the three answer, the first message is the one
    that announces the request, and it carries the number the counter
    answered minus one. *)
Theorem request_announces_after_the_counter {W} {P : Bot.Platform}
  {G : Bot.Gateway W} (fuel : nat) (account arg1 arg2 : string)
  (rest : list string) (key blockId : Z) (w : W) :
  Bot.py_int arg1 = inr key ->
  Bot.py_int arg2 = inr blockId ->
  let run := Bot.request fuel (account :: arg1 :: arg2 :: rest) w in
  (forall x w1,
      Bot.request_transact account key blockId 0 0 w = (inl x, w1) ->
      run = mkRun (Raise x) w1
              [(Bot.RequestTransact account key blockId 0 0, false)]) /\
  (forall h w1 x w2,
      Bot.request_transact account key blockId 0 0 w = (inr h, w1) ->
      Bot.wait_for_transaction_receipt h w1 = (inl x, w2) ->
      run = mkRun (Raise x) w2
              [ (Bot.RequestTransact account key blockId 0 0, true);
                (Bot.WaitForReceipt h, false) ]) /\
  (forall h w1 r w2 x w3,
      Bot.request_transact account key blockId 0 0 w = (inr h, w1) ->
      Bot.wait_for_transaction_receipt h w1 = (inr r, w2) ->
      Bot.getTotal w2 = (inl x, w3) ->
      run = mkRun (Raise x) w3
              [ (Bot.RequestTransact account key blockId 0 0, true);
                (Bot.WaitForReceipt h, true);
                (Bot.GetTotal, false) ]) /\
  (forall h w1 r w2 total w3,
      Bot.request_transact account key blockId 0 0 w = (inr h, w1) ->
      Bot.wait_for_transaction_receipt h w1 = (inr r, w2) ->
      Bot.getTotal w2 = (inr total, w3) ->
      exists t,
        trace run =
        [ (Bot.RequestTransact account key blockId 0 0, true);
          (Bot.WaitForReceipt h, true);
          (Bot.GetTotal, true);
          (Bot.ReplyText
             (Bot.RequestCreated (total - 1) account key blockId), true) ]
        ++ t).
Proof.
  intros Hk Hb run. subst run. repeat split.
  - intros x w1 Ht. exact (request_transact_raises _ _ _ _ _ _ _ _ Hk Hb _ _ Ht).
  - intros h w1 x w2 Ht Hr.
    exact (request_receipt_raises _ _ _ _ _ _ _ _ Hk Hb _ _ _ _ Ht Hr).
  - intros h w1 r w2 x w3 Ht Hr Hg.
    exact (request_counter_raises _ _ _ _ _ _ _ _ Hk Hb _ _ _ _ _ _ Ht Hr Hg).
  - intros h w1 r w2 total w3 Ht Hr Hg.
    destruct (Bot.createFilter (total - 1) w3) as [[x|id] w4] eqn:Hf.
    + rewrite (request_filter_raises _ _ _ _ _ _ _ _ Hk Hb
                 _ _ _ _ _ _ _ _ Ht Hr Hg Hf).
      eexists. reflexivity.
    + rewrite (request_prefix fuel (account :: arg1 :: arg2 :: rest)
                 account arg1 arg2 key blockId w w1 w2 w3 w4 h r total id
                 eq_refl eq_refl Hk eq_refl Hb Ht Hr Hg Hf).
      eexists. reflexivity.
Qed.

Lemma request_announces_after_the_counter_witness :
  Bot.request 5 Scenario.request_args (Scenario.testnet 42 false [])
  = mkRun (Raise TransportError) (Scenario.testnet 42 false [])
      [(Bot.RequestTransact "0xabc"%string 3 18000000 0 0, false)] /\
  exists t,
    trace (Bot.request 5 Scenario.request_args
             (Scenario.testnet 42 true
                [[]; []; [Testnet.Submit "0xdef"%string 1 2]]))
    = [ (Bot.RequestTransact "0xabc"%string 3 18000000 0 0, true);
        (Bot.WaitForReceipt [x01], true);
        (Bot.GetTotal, true);
        (Bot.ReplyText (Bot.RequestCreated (44 - 1) "0xabc"%string 3 18000000),
         true) ] ++ t.
Proof.
  split.
  - refine (proj1 (request_announces_after_the_counter
                     (P := Testnet.platform) (G := Testnet.gateway)
                     5 "0xabc"%string "3"%string "18000000"%string []
                     3 18000000 (Scenario.testnet 42 false [])
                     eq_refl eq_refl) TransportError _ _).
    reflexivity.
  - refine (proj2 (proj2 (proj2 (request_announces_after_the_counter
                     (P := Testnet.platform) (G := Testnet.gateway)
                     5 "0xabc"%string "3"%string "18000000"%string []
                     3 18000000
                     (Scenario.testnet 42 true
                        [[]; []; [Testnet.Submit "0xdef"%string 1 2]])
                     eq_refl eq_refl))) [x01] _ {| status := 1 |} _ 44 _
                     _ _ _); reflexivity.
Defined.

(** X12: when the event filter keeps its exact-match contract, a [request]
    that returns has sent exactly two messages, the announcement and the
    reply, and both carry the same requestId. *)
Theorem request_messages_carry_one_id {W} {P : Bot.Platform}
  {G : Bot.Gateway W} (Hfilter : exact_match G) (fuel : nat)
  (args : list string) (w : W) :
  result (Bot.request fuel args w) = Ok tt ->
  exists id account key blockId reply,
    replies (trace (Bot.request fuel args w)) =
    [ Bot.RequestCreated id account key blockId;
      Bot.RequestServedMsg id reply ].
Proof.
  intros H.
  destruct args as [|account [|arg1 [|arg2 rest]]];
    try (unfold Bot.request, bind, lift, item in H; simpl in H;
         try destruct (Bot.py_int arg1); discriminate).
  destruct (Bot.py_int arg1) as [x|key] eqn:Hk;
    [unfold Bot.request, bind, lift, item in H; simpl in H;
     rewrite Hk in H; discriminate|].
  destruct (Bot.py_int arg2) as [x|blockId] eqn:Hb;
    [unfold Bot.request, bind, lift, item in H; simpl in H;
     rewrite Hk in H; simpl in H; rewrite Hb in H; discriminate|].
  destruct (Bot.request_transact account key blockId 0 0 w)
    as [[x|h] w1] eqn:Et;
    [rewrite (request_transact_raises fuel _ _ _ rest _ _ w Hk Hb _ _ Et) in H;
     discriminate|].
  destruct (Bot.wait_for_transaction_receipt h w1) as [[x|r] w2] eqn:Er;
    [rewrite (request_receipt_raises fuel _ _ _ rest _ _ w Hk Hb _ _ _ _ Et Er)
       in H; discriminate|].
  destruct (Bot.getTotal w2) as [[x|total] w3] eqn:Eg;
    [rewrite (request_counter_raises fuel _ _ _ rest _ _ w Hk Hb
                _ _ _ _ _ _ Et Er Eg) in H; discriminate|].
  destruct (Bot.createFilter (total - 1) w3) as [[x|id] w4] eqn:Ef;
    [rewrite (request_filter_raises fuel _ _ _ rest _ _ w Hk Hb
                _ _ _ _ _ _ _ _ Et Er Eg Ef) in H; discriminate|].
  rewrite (request_prefix fuel (account :: arg1 :: arg2 :: rest)
             account arg1 arg2 key blockId w w1 w2 w3 w4 h r total id
             eq_refl eq_refl Hk eq_refl Hb Et Er Eg Ef) in H |- *.
  cbn [result trace] in H |- *.
  set (f := {| Bot.filter_id := id; Bot.argument_filters := total - 1 |})
    in H |- *.
  destruct (result (Bot.listen fuel f w4)) as [event| |] eqn:El.
  - rewrite (bind_ok _ _ _ _ El). cbn [trace].
    destruct (listen_returns_inv fuel f w4 event El)
      as (n & w_n & others & w' & _ & _ & Hpoll).
    pose proof (Hfilter f w_n (event :: others) w' Hpoll) as Hall.
    inversion Hall as [|? ? Hid _]. subst.
    exists (total - 1), account, key, blockId, (Bot.reply event).
    rewrite !replies_app, listen_sends_nothing. simpl. rewrite Hid.
    reflexivity.
  - rewrite (bind_raise _ _ _ _ El) in H. discriminate.
  - rewrite (bind_out_of_fuel _ _ _ El) in H. discriminate.
Qed.

Lemma request_messages_carry_one_id_witness :
  exists id account key blockId reply,
    replies (trace (Bot.request 5 Scenario.request_args
                      (Scenario.testnet 42 true
                         [[]; []; []; []; []; [Testnet.Verify 42 [x2a]]]))) =
    [ Bot.RequestCreated id account key blockId;
      Bot.RequestServedMsg id reply ].
Proof.
  exact (request_messages_carry_one_id testnet_exact_match 5
           Scenario.request_args
           (Scenario.testnet 42 true
              [[]; []; []; []; []; [Testnet.Verify 42 [x2a]]])
           eq_refl).
Defined.

(** ** [check] *)

(** X13: without an argument, or with one that [int] refuses, [check]
    raises before its [try]: the exception is not caught, the Bridge is not
    asked and no message is sent. *)
Theorem check_with_bad_argument_raises {W} {P : Bot.Platform}
  {G : Bot.Gateway W} (args : list string) (w : W) :
  (forall arg0 rest requestId,
      args = arg0 :: rest -> Bot.py_int arg0 = inr requestId -> False) ->
  exists x, Bot.check args w = mkRun (Raise x) w [].
Proof.
  intros Hbad. unfold Bot.check, bind, lift, item.
  destruct args as [|arg0 rest]; simpl; [exists IndexError; reflexivity|].
  destruct (Bot.py_int arg0) as [x|requestId] eqn:E; simpl;
    [exists x; reflexivity|].
  exfalso. exact (Hbad _ _ _ eq_refl E).
Qed.

Lemma check_with_bad_argument_raises_witness :
  exists x,
    Bot.check ["4x2"%string] (Scenario.testnet 43 true [])
    = mkRun (Raise x) (Scenario.testnet 43 true []) [].
Proof.
  apply (check_with_bad_argument_raises
           (P := Testnet.platform) (G := Testnet.gateway)).
  intros arg0 rest requestId Hargs H. injection Hargs as <- <-.
  discriminate H.
Defined.

(** X14: a request that exists is reported as not found when its answer
    cannot be turned into the message: when [getRequest] answers a tuple
    whose field 3 is a timestamp [datetime.fromtimestamp] refuses, the one
    message sent is the not-found message. *)
Theorem unreadable_date_reported_as_not_found {W} {P : Bot.Platform}
  {G : Bot.Gateway W} (args : list string) (arg0 : string)
  (rest : list string) (requestId : Z) (w w' : W) (msg : list Bot.PyVal)
  (msg3 : Bot.PyVal) (x : Exn) :
  args = arg0 :: rest ->
  Bot.py_int arg0 = inr requestId ->
  Bot.getRequest requestId w = (inr msg, w') ->
  item msg 3 = inr msg3 ->
  Bot.datetime_fromtimestamp msg3 = inl x ->
  Bot.check args w =
  mkRun (Ok tt) w'
        [ (Bot.GetRequest requestId, true);
          (Bot.ReplyText (Bot.NotFound requestId), true) ].
Proof.
  intros -> Hid Hget H3 Hd.
  unfold Bot.check, bind, try_except, perform, lift, Bot.reply_text.
  simpl. rewrite Hid. simpl. rewrite Hget. simpl. rewrite H3. simpl.
  rewrite Hd. reflexivity.
Qed.

Lemma unreadable_date_reported_as_not_found_witness :
  replies (trace (Bot.check (P := Time32.platform) ["0"%string] Time32.dated))
  = [Bot.NotFound 0].
Proof.
  rewrite (unreadable_date_reported_as_not_found
             (P := Time32.platform) (G := Testnet.gateway)
             ["0"%string] "0"%string [] 0 Time32.dated Time32.dated
             _ (Bot.VInt 4102444800) OverflowError
             eq_refl eq_refl eq_refl eq_refl eq_refl).
  reflexivity.
Defined.

(** ** The counter queries *)




(** ** The waiter of a request *)

(** A wait that returns an event made its polls of the one filter, in a
    row, and returns the first entry of the first batch that had one. *)
Lemma listen_returns_full {W} {G : Bot.Gateway W} (fuel : nat)
  (f : Bot.EventFilter) (w : W) (ev : Bot.RequestServed) :
  result (Bot.listen fuel f w) = Ok ev ->
  exists n w_n rest w',
    (n < fuel)%nat /\
    after_empty_polls n f w = Some w_n /\
    Bot.get_new_entries f w_n = (inr (ev :: rest), w') /\
    Bot.listen fuel f w =
      mkRun (Ok ev) w' (empty_polls n f ++ [(Bot.GetNewEntries f, true)]).
Proof.
  revert w. induction fuel as [|fuel IH]; intros w H; [discriminate|].
  destruct (Bot.get_new_entries f w) as [[x|[|e es]] w'] eqn:E.
  - rewrite (listen_poll_raises _ _ _ _ _ E) in H. discriminate.
  - rewrite (listen_poll_empty _ _ _ _ E) in H. simpl in H.
    destruct (IH _ H) as (n & w_n & rest & w'' & Hn & Ha & Hp & Hrun).
    exists (S n), w_n, rest, w''. split; [lia|]. split; [|split; [exact Hp|]].
    + simpl. rewrite E. exact Ha.
    + rewrite (listen_poll_empty _ _ _ _ E). rewrite Hrun. reflexivity.
  - rewrite (listen_poll_entries _ _ _ _ _ _ E) in H. injection H as ->.
    exists 0%nat, w, es, w'. split; [lia|]. split; [reflexivity|].
    split; [exact E|]. exact (listen_poll_entries _ _ _ _ _ _ E).
Qed.

(** A [request] that returns went through every step: the three calls
    answered, the chat took the first message, the filter was registered
    for the counter minus one, the wait on that filter returned an event
    and the chat took the message made from it. *)
Lemma request_returns_inv {W} {P : Bot.Platform} {G : Bot.Gateway W}
  {C : Bot.Chat W} (fuel : nat) (args : list string) (w : W) :
  result (Bot.request (C := C) fuel args w) = Ok tt ->
  exists account arg1 arg2 rest key blockId txn_hash receipt total id ev
         w1 w2 w3 w3' w4 w5 w6 t_wait,
    args = account :: arg1 :: arg2 :: rest /\
    Bot.py_int arg1 = inr key /\ Bot.py_int arg2 = inr blockId /\
    Bot.request_transact account key blockId 0 0 w = (inr txn_hash, w1) /\
    Bot.wait_for_transaction_receipt txn_hash w1 = (inr receipt, w2) /\
    Bot.getTotal w2 = (inr total, w3) /\
    Bot.deliver (Bot.RequestCreated (total - 1) account key blockId) w3
      = (inr tt, w3') /\
    Bot.createFilter (total - 1) w3' = (inr id, w4) /\
    Bot.listen fuel
      {| Bot.filter_id := id; Bot.argument_filters := total - 1 |} w4
      = mkRun (Ok ev) w5 t_wait /\
    Bot.deliver (Bot.RequestServedMsg (Bot.requestId ev) (Bot.reply ev)) w5
      = (inr tt, w6) /\
    Bot.request (C := C) fuel args w =
      mkRun (Ok tt) w6
        ([ (Bot.RequestTransact account key blockId 0 0, true);
           (Bot.WaitForReceipt txn_hash, true);
           (Bot.GetTotal, true);
           (Bot.ReplyText
              (Bot.RequestCreated (total - 1) account key blockId), true);
           (Bot.CreateFilter (total - 1), true) ] ++
         t_wait ++
         [ (Bot.ReplyText
              (Bot.RequestServedMsg (Bot.requestId ev) (Bot.reply ev)),
            true) ]).
Proof.
  unfold Bot.request.
  remember (Bot.listen fuel) as waiting eqn:Hwaiting.
  unfold bind, Bot.reply_text, perform, lift, ret, raise.
  destruct args as [|account [|arg1 rest1]];
    cbn [item nth_error]; try (intros H; cbn in H; discriminate H).
  destruct (Bot.py_int arg1) as [x|key] eqn:Hk;
    try (intros H; cbn in H; discriminate H).
  destruct rest1 as [|arg2 rest]; cbn [item nth_error];
    try (intros H; cbn in H; discriminate H).
  destruct (Bot.py_int arg2) as [x|blockId] eqn:Hb;
    try (intros H; cbn in H; discriminate H).
  cbn beta iota.
  destruct (Bot.request_transact account key blockId 0 0 w)
    as [[x|txn_hash] w1] eqn:Ht;
    try (intros H; cbn in H; discriminate H).
  cbn beta iota.
  destruct (Bot.wait_for_transaction_receipt txn_hash w1)
    as [[x|receipt] w2] eqn:Hr;
    try (intros H; cbn in H; discriminate H).
  cbn beta iota.
  destruct (Bot.getTotal w2) as [[x|total] w3] eqn:Hg;
    try (intros H; cbn in H; discriminate H).
  cbn beta iota.
  destruct (Bot.deliver (Bot.RequestCreated (total - 1) account key blockId)
              w3) as [[x|[]] w3'] eqn:Hd;
    try (intros H; cbn in H; discriminate H).
  cbn beta iota.
  destruct (Bot.createFilter (total - 1) w3') as [[x|id] w4] eqn:Hf;
    try (intros H; cbn in H; discriminate H).
  cbn beta iota.
  destruct (waiting
              {| Bot.filter_id := id; Bot.argument_filters := total - 1 |} w4)
    as [[ev|x|] w5 t_wait] eqn:Hw;
    try (intros H; cbn in H; discriminate H).
  cbn beta iota.
  destruct (Bot.deliver
              (Bot.RequestServedMsg (Bot.requestId ev) (Bot.reply ev)) w5)
    as [[x|[]] w6] eqn:Hd';
    try (intros H; cbn in H; discriminate H).
  intros _.
  exists account, arg1, arg2, rest, key, blockId, txn_hash, receipt, total,
    id, ev, w1, w2, w3, w3', w4, w5, w6, t_wait.
  repeat (split; [first [reflexivity | assumption]|]).
  cbn [result final trace app]. reflexivity.
Qed.

(** C7: a waiter returns only a RequestServed event of its own request,
    provided the event filter keeps its exact-match contract.  [listen]
    polls no filter but the one it was given and returns the first entry
    of the first batch that has one, an event whose requestId is the one
    the filter is constrained to.  [request] registers its filter for the
    counter minus one, the identifier of its first message, waits on that
    filter and no other, and its last message carries that identifier and
    the reply of the event the filter returned: it reports no other
    request's answer. *)
Theorem waiter_gets_event_of_its_request {W} {P : Bot.Platform}
  {G : Bot.Gateway W} {C : Bot.Chat W} (Hfilter : exact_match G) :
  (forall fuel f w ev,
      result (Bot.listen fuel f w) = Ok ev ->
      Bot.requestId ev = Bot.argument_filters f /\
      exists n w_n rest w',
        (n < fuel)%nat /\
        after_empty_polls n f w = Some w_n /\
        Bot.get_new_entries f w_n = (inr (ev :: rest), w') /\
        Bot.listen fuel f w =
          mkRun (Ok ev) w'
                (empty_polls n f ++ [(Bot.GetNewEntries f, true)])) /\
  (forall fuel args w,
      result (Bot.request (C := C) fuel args w) = Ok tt ->
      exists account key blockId txn_hash total id ev w3 w4 n w_n rest w5 w6,
        let f := {| Bot.filter_id := id;
                    Bot.argument_filters := total - 1 |} in
        Bot.createFilter (total - 1) w3 = (inr id, w4) /\
        (n < fuel)%nat /\
        after_empty_polls n f w4 = Some w_n /\
        Bot.get_new_entries f w_n = (inr (ev :: rest), w5) /\
        Bot.requestId ev = total - 1 /\
        Bot.request (C := C) fuel args w =
          mkRun (Ok tt) w6
            ([ (Bot.RequestTransact account key blockId 0 0, true);
               (Bot.WaitForReceipt txn_hash, true);
               (Bot.GetTotal, true);
               (Bot.ReplyText
                  (Bot.RequestCreated (total - 1) account key blockId), true);
               (Bot.CreateFilter (total - 1), true) ] ++
             empty_polls n f ++
             [ (Bot.GetNewEntries f, true);
               (Bot.ReplyText
                  (Bot.RequestServedMsg (total - 1) (Bot.reply ev)), true) ])).
Proof.
  assert (Hlisten : forall fuel f w ev,
      result (Bot.listen fuel f w) = Ok ev ->
      Bot.requestId ev = Bot.argument_filters f /\
      exists n w_n rest w',
        (n < fuel)%nat /\
        after_empty_polls n f w = Some w_n /\
        Bot.get_new_entries f w_n = (inr (ev :: rest), w') /\
        Bot.listen fuel f w =
          mkRun (Ok ev) w'
                (empty_polls n f ++ [(Bot.GetNewEntries f, true)])).
  { intros fuel f w ev H.
    destruct (listen_returns_full fuel f w ev H)
      as (n & w_n & rest & w' & Hn & Ha & Hp & Hrun).
    split.
    - pose proof (Hfilter f w_n (ev :: rest) w' Hp) as Hall.
      inversion Hall; assumption.
    - exists n, w_n, rest, w'. repeat split; assumption. }
  split; [exact Hlisten|].
  intros fuel args w H.
  destruct (request_returns_inv fuel args w H)
    as (account & arg1 & arg2 & rest0 & key & blockId & txn_hash & receipt &
        total & id & ev & w1 & w2 & w3 & w3' & w4 & w5 & w6 & t_wait &
        Hargs & Hk & Hb & Ht & Hr & Hg & Hd & Hf & Hw & Hd' & Hrun).
  assert (Hev : result (Bot.listen fuel
                  {| Bot.filter_id := id; Bot.argument_filters := total - 1 |}
                  w4) = Ok ev) by (rewrite Hw; reflexivity).
  destruct (Hlisten _ _ _ _ Hev)
    as (Hid & n & w_n & rest & w5' & Hn & Ha & Hp & Hfull).
  cbn [Bot.argument_filters] in Hid.
  rewrite Hw in Hfull. injection Hfull as Hw5 Htw.
  exists account, key, blockId, txn_hash, total, id, ev, w3', w4, n, w_n,
    rest, w5, w6.
  cbv zeta. subst w5'.
  repeat (split; [assumption|]).
  rewrite Hrun, Htw, Hid, <- app_assoc. reflexivity.
Qed.

Lemma waiter_gets_event_of_its_request_witness :
  let ev := {| Bot.requestId := 41; Bot.reply := [x29] |} in
  let w := Scenario.watching
             [[]; [Testnet.Verify 42 [x2a]]; [Testnet.Verify 41 [x29]]] in
  let c := Scenario.testnet 42 true
             [[]; []; []; []; []; [Testnet.Verify 42 [x2a]]] in
  (Bot.requestId ev = Bot.argument_filters Scenario.filter41 /\
   exists n w_n rest w',
     (n < 5)%nat /\
     after_empty_polls n Scenario.filter41 w = Some w_n /\
     Bot.get_new_entries Scenario.filter41 w_n = (inr (ev :: rest), w') /\
     Bot.listen 5 Scenario.filter41 w =
       mkRun (Ok ev) w'
             (empty_polls n Scenario.filter41 ++
              [(Bot.GetNewEntries Scenario.filter41, true)])) /\
  (exists account key blockId txn_hash total id ev w3 w4 n w_n rest w5 w6,
      let f := {| Bot.filter_id := id;
                  Bot.argument_filters := total - 1 |} in
      Bot.createFilter (total - 1) w3 = (inr id, w4) /\
      (n < 5)%nat /\
      after_empty_polls n f w4 = Some w_n /\
      Bot.get_new_entries f w_n = (inr (ev :: rest), w5) /\
      Bot.requestId ev = total - 1 /\
      Bot.request 5 Scenario.request_args c =
        mkRun (Ok tt) w6
          ([ (Bot.RequestTransact account key blockId 0 0, true);
             (Bot.WaitForReceipt txn_hash, true);
             (Bot.GetTotal, true);
             (Bot.ReplyText
                (Bot.RequestCreated (total - 1) account key blockId), true);
             (Bot.CreateFilter (total - 1), true) ] ++
           empty_polls n f ++
           [ (Bot.GetNewEntries f, true);
             (Bot.ReplyText
                (Bot.RequestServedMsg (total - 1) (Bot.reply ev)), true) ])).
Proof.
  intros ev w c. split.
  - exact (proj1 (waiter_gets_event_of_its_request
                    (P := Testnet.platform) (C := Bot.reliable _)
                    testnet_exact_match)
             5%nat Scenario.filter41 w ev eq_refl).
  - exact (proj2 (waiter_gets_event_of_its_request
                    (P := Testnet.platform) (C := Bot.reliable _)
                    testnet_exact_match)
             5%nat Scenario.request_args c eq_refl).
Defined.


(** ** The replies of the status check *)

Lemma reliable_takes_all (W : Type) : Chatting.takes_all (Bot.reliable W).
Proof. intros message w. exists w. reflexivity. Qed.

(** C10, as stated, fails: the not-found message is sent by [reply_text]
    in the except branch, outside any try.  Asked for the request 43 of a
    Bridge that holds the requests 0 to 42 while the chat refuses the
    messages, [getRequest] reverts, [reply_text] raises on the not-found
    message and the exception leaves [check]; the chat got no message. *)
Lemma refused_reply_leaves_check :
  let run := Bot.check (C := Bot.unreachable _) ["43"%string]
               (Scenario.testnet 43 true []) in
  fst (Bot.getRequest 43 (Scenario.testnet 43 true []))
  = inl ContractLogicError /\
  trace run =
    [ (Bot.GetRequest 43, false);
      (Bot.ReplyText (Bot.NotFound 43), false) ] /\
  result run = Raise (OtherError "telegram.error.NetworkError") /\
  Chatting.delivered (trace run) = [].
Proof. vm_compute. repeat split. Qed.

(** When the chat refuses the message about the request 42, which the
    Bridge holds, the except branch takes over: two messages are handed to
    [reply_text] and the one the chat gets says the request is not found. *)
Lemma refused_details_reported_as_not_found :
  let run := Bot.check (C := Bot.choosy _) ["42"%string]
               (Scenario.testnet 43 true []) in
  result run = Ok tt /\
  length (replies (trace run)) = 2%nat /\
  Chatting.delivered (trace run) = [Bot.NotFound 42].
Proof. vm_compute. repeat split. Qed.

(** C10, amended: provided [context.args[0]] is read as the integer
    [requestId] and the chat takes the messages handed to [reply_text],
    [check] ends without an exception for every outcome of [getRequest],
    having handed exactly one message to [reply_text], which the chat got:
    the details of the request, made of the fields of the answer, when the
    call answered and the answer could be read; the not-found message when
    the call raised, whatever the exception, or the answer could not be
    read. *)
Theorem check_sends_exactly_one_reply {W} {P : Bot.Platform}
  {G : Bot.Gateway W} {C : Bot.Chat W} (args : list string) (arg0 : string)
  (rest : list string) (requestId : Z) (w : W) :
  Chatting.takes_all C ->
  args = arg0 :: rest ->
  Bot.py_int arg0 = inr requestId ->
  let run := Bot.check (C := C) args w in
  result run = Ok tt /\
  exists message,
    replies (trace run) = [message] /\
    Chatting.delivered (trace run) = [message] /\
    (forall x, fst (Bot.getRequest requestId w) = inl x ->
               message = Bot.NotFound requestId) /\
    (forall msg,
        fst (Bot.getRequest requestId w) = inr msg ->
        (forall address key block date served resp,
            Chatting.readable msg address key block date served resp ->
            message =
              Bot.RequestStatus requestId address key block date served resp)
        /\
        ((forall address key block date served resp,
             ~ Chatting.readable msg address key block date served resp) ->
         message = Bot.NotFound requestId)).
Proof.
  intros Hall -> Hid run. subst run.
  unfold Bot.check, bind, try_except, Bot.reply_text, perform, lift.
  simpl. rewrite Hid. simpl.
  destruct (Bot.getRequest requestId w) as [[x|msg] w1]; simpl.
  { destruct (Hall (Bot.NotFound requestId) w1) as [w' Hd].
    rewrite Hd. simpl. split; [reflexivity|].
    exists (Bot.NotFound requestId). repeat split; intros; discriminate. }
  assert (Hnot :
    (forall address key block date served resp,
        ~ Chatting.readable msg address key block date served resp) ->
    exists message,
      [Bot.NotFound requestId] = [message] /\
      [Bot.NotFound requestId] = [message] /\
      (forall x, @inr Exn _ msg = inl x -> message = Bot.NotFound requestId) /\
      (forall msg',
          @inr Exn _ msg = inr msg' ->
          (forall address key block date served resp,
              Chatting.readable msg' address key block date served resp ->
              message =
                Bot.RequestStatus requestId address key block date served resp)
          /\
          ((forall address key block date served resp,
               ~ Chatting.readable msg' address key block date served resp) ->
           message = Bot.NotFound requestId))).
  { intros Hno. exists (Bot.NotFound requestId).
    split; [reflexivity|]. split; [reflexivity|].
    split; [intros x Hx; discriminate|].
    intros msg' Hm. injection Hm as <-. split; [|intros _; reflexivity].
    intros a k b d s r Hr. destruct (Hno _ _ _ _ _ _ Hr). }
  destruct (Hall (Bot.NotFound requestId) w1) as [w' Hd].
  destruct (item msg 3) as [x3|m3] eqn:E3; simpl.
  { rewrite Hd. simpl. split; [reflexivity|]. apply Hnot.
    intros a k b d s r (_ & _ & _ & (m & H3 & _) & _). congruence. }
  destruct (Bot.datetime_fromtimestamp m3) as [xd|date] eqn:Ed; simpl.
  { rewrite Hd. simpl. split; [reflexivity|]. apply Hnot.
    intros a k b d s r (_ & _ & _ & (m & H3 & Hm) & _). congruence. }
  destruct (item msg 7) as [x7|m7] eqn:E7; simpl.
  { rewrite Hd. simpl. split; [reflexivity|]. apply Hnot.
    intros a k b d s r (_ & _ & _ & _ & _ & (m & H7 & _)). congruence. }
  destruct (Bot.hex m7) as [xh|resp] eqn:Eh; simpl.
  { rewrite Hd. simpl. split; [reflexivity|]. apply Hnot.
    intros a k b d s r (_ & _ & _ & _ & _ & (m & H7 & Hm)). congruence. }
  destruct (item msg 0) as [x0|m0] eqn:E0; simpl.
  { rewrite Hd. simpl. split; [reflexivity|]. apply Hnot.
    intros a k b d s r (H0 & _). congruence. }
  destruct (item msg 1) as [x1|m1] eqn:E1; simpl.
  { rewrite Hd. simpl. split; [reflexivity|]. apply Hnot.
    intros a k b d s r (_ & H1 & _). congruence. }
  destruct (item msg 2) as [x2|m2] eqn:E2; simpl.
  { rewrite Hd. simpl. split; [reflexivity|]. apply Hnot.
    intros a k b d s r (_ & _ & H2 & _). congruence. }
  destruct (item msg 6) as [x6|m6] eqn:E6; simpl.
  { rewrite Hd. simpl. split; [reflexivity|]. apply Hnot.
    intros a k b d s r (_ & _ & _ & _ & H6 & _). congruence. }
  destruct (Hall (Bot.RequestStatus requestId m0 m1 m2 date m6 resp) w1)
    as [w'' Hd'].
  rewrite Hd'. simpl. split; [reflexivity|].
  exists (Bot.RequestStatus requestId m0 m1 m2 date m6 resp).
  split; [reflexivity|]. split; [reflexivity|].
  split; [intros x Hx; discriminate|].
  intros msg' Hm. injection Hm as <-. split.
  - intros a k b d s r
      (H0 & H1 & H2 & (m3' & H3 & Hd3) & H6 & (m7' & H7 & Hh)).
    congruence.
  - intros Hno. exfalso.
    apply (Hno m0 m1 m2 date m6 resp).
    repeat split; try assumption.
    + exists m3. split; assumption.
    + exists m7. split; assumption.
Qed.

Lemma check_sends_exactly_one_reply_witness :
  let run := Bot.check ["42"%string] (Scenario.testnet 43 true []) in
  result run = Ok tt /\
  exists message,
    replies (trace run) = [message] /\
    Chatting.delivered (trace run) = [message] /\
    (forall x, fst (Bot.getRequest 42 (Scenario.testnet 43 true [])) = inl x ->
               message = Bot.NotFound 42) /\
    (forall msg,
        fst (Bot.getRequest 42 (Scenario.testnet 43 true [])) = inr msg ->
        (forall address key block date served resp,
            Chatting.readable msg address key block date served resp ->
            message = Bot.RequestStatus 42 address key block date served resp)
        /\
        ((forall address key block date served resp,
             ~ Chatting.readable msg address key block date served resp) ->
         message = Bot.NotFound 42)).
Proof.
  exact (check_sends_exactly_one_reply
           (P := Testnet.platform) (G := Testnet.gateway)
           (C := Bot.reliable _)
           ["42"%string] "42"%string [] 42 (Scenario.testnet 43 true [])
           (reliable_takes_all _) eq_refl eq_refl).
Defined.

End Facts.
